(** * A model of the signal bot (bot.py) and proofs about it

    The development follows the file top-down:

    - [Py]: the Python values, exceptions and built-in operations that
      [create_binary_chart] uses;
    - [Plt]: matplotlib's pyplot state machine as far as the renderer drives
      it, with the monad of computations that change the process state and
      may raise;
    - [Chart]: [BinaryTradingBot.create_binary_chart];
    - [Sql]: the SQLite schema that [setup_database] creates, with INSERT and
      UPDATE over it;
    - [Core]: the signal pipeline whose methods are not part of bot.py
      (analysis, signal building, eligibility, dispatch, outcome resolution);
    - [Bot]: the constructor, [setup_handlers], [run] and the main block;
    - the scenarios that the proofs are tried on.

    The proofs come after the definitions. *)

From Stdlib Require Import ZArith QArith Qminmax Floats Lia.
From stdpp Require Import base option list gmap strings pretty.

#[local] Set Warnings "-register-all,-inexact-float".
#[local] Open Scope Z_scope.

(** ** Python values and built-ins *)

Module Py.

(** The objects a signal dictionary can hold. Floats are IEEE binary64, as
    in CPython. Dictionaries are keyed by [str], which is all that
    [create_binary_chart] looks up. *)
Inductive pyval :=
| PyNone
| PyBool (b : bool)
| PyInt (n : Z)
| PyFloat (x : float)
| PyStr (s : string)
| PyList (l : list pyval)
| PyDict (d : gmap string pyval).

(** The exceptions that the body of the renderer can raise. All of them
    are subclasses of [Exception]; [LibraryError] stands for whatever
    matplotlib or the operating system raises ([OSError], ...). *)
Inductive pyexn :=
| KeyError (key : string)
| TypeError (msg : string)
| ValueError (msg : string)
| OverflowError (msg : string)
| AttributeError (msg : string)
| LibraryError (msg : string).

Inductive result (A : Type) :=
| Ok (a : A)
| Raise (e : pyexn).
Arguments Ok {A} a.
Arguments Raise {A} e.

Definition exn_message (e : pyexn) : string :=
  match e with
  | KeyError k => "'" +:+ k +:+ "'"
  | TypeError m | ValueError m | OverflowError m
  | AttributeError m | LibraryError m => m
  end.

(** [type(obj).__name__], as the interpreter's messages quote it. *)
Definition type_name (obj : pyval) : string :=
  match obj with
  | PyNone => "NoneType"
  | PyBool _ => "bool"
  | PyInt _ => "int"
  | PyFloat _ => "float"
  | PyStr _ => "str"
  | PyList _ => "list"
  | PyDict _ => "dict"
  end.

(** [obj[key]] for a string key. *)
Definition getitem (obj : pyval) (key : string) : result pyval :=
  match obj with
  | PyDict d =>
      match d !! key with
      | Some v => Ok v
      | None => Raise (KeyError key)
      end
  | PyList _ => Raise (TypeError "list indices must be integers or slices, not str")
  | PyStr _ => Raise (TypeError "string indices must be integers, not 'str'")
  | _ => Raise (TypeError ("'" +:+ type_name obj +:+ "' object is not subscriptable"))
  end.

(** [obj.get(key, default)]: only dictionaries have the method. *)
Definition get (obj : pyval) (key : string) (dflt : pyval) : result pyval :=
  match obj with
  | PyDict d => Ok (default dflt (d !! key))
  | _ => Raise (AttributeError ("'" +:+ type_name obj +:+ "' object has no attribute 'get'"))
  end.

(** [len(obj)] *)
Definition len (obj : pyval) : result Z :=
  match obj with
  | PyList l => Ok (Z.of_nat (length l))
  | PyStr s => Ok (Z.of_nat (String.length s))
  | PyDict d => Ok (Z.of_nat (size d))
  | _ => Raise (TypeError ("object of type '" +:+ type_name obj +:+ "' has no len()"))
  end.

(** [list(range(n))] *)
Definition range (n : Z) : list Z := seqZ 0 n.

(** [obj == s] for a string literal [s]. *)
Definition eq_str (obj : pyval) (s : string) : bool :=
  match obj with
  | PyStr t => String.eqb t s
  | _ => false
  end.

(** *** Floats *)

Definition float_100 : float := 100%float.

(** [float(n)] for an int: round to nearest even; too large an int raises. *)
Definition float_of_int (n : Z) : result float :=
  match binary_normalize prec emax n 0 false with
  | S754_infinity _ => Raise (OverflowError "int too large to convert to float")
  | sf => Ok (SF2Prim sf)
  end.

(** [int(x)] for a float: truncation toward zero. *)
Definition int_of_float (x : float) : result Z :=
  match Prim2SF x with
  | S754_zero _ => Ok 0
  | S754_nan => Raise (ValueError "cannot convert float NaN to integer")
  | S754_infinity _ => Raise (OverflowError "cannot convert float infinity to integer")
  | S754_finite s m e =>
      let a := if 0 <=? e then Z.pos m * 2 ^ e else Z.pos m / 2 ^ (- e) in
      Ok (if s then - a else a)
  end.

Definition round_half_even (num den : Z) : Z :=
  let q := num / den in
  let r := num mod den in
  if 2 * r <? den then q
  else if den <? 2 * r then q + 1
  else if Z.even q then q else q + 1.

Fixpoint zeros (n : nat) : string :=
  match n with
  | O => ""
  | S n' => "0" +:+ zeros n'
  end.

Definition pad_left (width : nat) (s : string) : string :=
  zeros (width - String.length s) +:+ s.

(** [format(x, '.<p>f')]: the exact value of [x], correctly rounded to
    [p] decimals. *)
Definition format_f (p : nat) (x : float) : string :=
  let fixed (s : bool) (n : Z) :=
    let scale := 10 ^ Z.of_nat p in
    (if s then "-" else "") +:+ pretty (n / scale) +:+
    (if p is O then "" else "." +:+ pad_left p (pretty (n mod scale))) in
  match Prim2SF x with
  | S754_nan => "nan"
  | S754_infinity s => if s then "-inf" else "inf"
  | S754_zero s => fixed s 0
  | S754_finite s m e =>
      let scale := 10 ^ Z.of_nat p in
      fixed s (if 0 <=? e then Z.pos m * 2 ^ e * scale
               else round_half_even (Z.pos m * scale) (2 ^ (- e)))
  end.

(** [obj * 100] *)
Definition mul_100 (obj : pyval) : result pyval :=
  match obj with
  | PyFloat x => Ok (PyFloat (x * float_100)%float)
  | PyInt n => Ok (PyInt (n * 100))
  | PyBool b => Ok (PyInt (if b then 100 else 0))
  | PyStr s => Ok (PyStr (String.concat "" (replicate 100 s)))
  | PyList l => Ok (PyList (mjoin (replicate 100 l)))
  | PyNone | PyDict _ =>
      Raise (TypeError ("unsupported operand type(s) for *: '" +:+ type_name obj +:+
                        "' and 'int'"))
  end.

(** [f'{obj:.<p>f}'] *)
Definition format_spec_f (p : nat) (obj : pyval) : result string :=
  match obj with
  | PyFloat x => Ok (format_f p x)
  | PyInt n =>
      match float_of_int n with
      | Ok x => Ok (format_f p x)
      | Raise e => Raise e
      end
  | PyBool b => Ok (format_f p (if b then 1 else 0)%float)
  | PyStr _ => Raise (ValueError "Unknown format code 'f' for object of type 'str'")
  | _ => Raise (TypeError ("unsupported format string passed to " +:+ type_name obj +:+
                           ".__format__"))
  end.

Section Repr.
(** [repr] of floats and containers is the interpreter's business
    (shortest round-tripping digits, quoting rules): it is taken as
    given. *)
Variable repr_other : pyval → string.

(** [f'{obj}'], that is [str(obj)]. *)
Definition str (obj : pyval) : string :=
  match obj with
  | PyStr s => s
  | PyInt n => pretty n
  | PyBool b => if b then "True" else "False"
  | PyNone => "None"
  | _ => repr_other obj
  end.
End Repr.

End Py.

(** ** pyplot *)

Module Plt.
Import Py.

(** What a figure holds once drawn. [x] of a line is [list(range(len(prices)))];
    [y] values are passed through to matplotlib as the objects they are. *)
Inductive artist :=
| Line2D (x : list Z) (y : pyval) (label color : string) (linewidth : Z)
| HLine (y : pyval) (color linestyle : string) (linewidth : option Z) (label : string).

Record fig := Fig {
  figsize : Z * Z;
  artists : list artist;
  title : option string;
  legend : bool;
  grid : option float
}.

(** The pyplot calls of [create_binary_chart], with their arguments. *)
Inductive call :=
| PltFigure (size : Z * Z)
| PltPlot (x : list Z) (y : pyval) (label color : string) (linewidth : Z)
| PltAxhline (y : pyval) (color linestyle : string) (linewidth : option Z) (label : string)
| PltTitle (s : string)
| PltLegend
| PltGrid (visible : bool) (alpha : float)
| PltSavefig (fname : string) (dpi : Z) (bbox_inches : string)
| PltClose.

(** The process state the renderer touches: pyplot's open figures (the head
    is the current one), the files on disk, the wall clock and the log. *)
Record world := World {
  open_figures : list fig;
  files : gmap string fig;
  clock : float;
  log : list string
}.

Definition new_fig (size : Z * Z) : fig :=
  {| figsize := size; artists := []; title := None; legend := false; grid := None |}.

(** rcParams' default figure size, used when pyplot has to open a figure
    by itself. *)
Definition default_figsize : Z * Z := (6, 4).

Definition gcf (w : world) : fig * list fig :=
  match open_figures w with
  | f :: rest => (f, rest)
  | [] => (new_fig default_figsize, [])
  end.

Definition on_current (g : fig → fig) (w : world) : world :=
  let '(f, rest) := gcf w in
  {| open_figures := g f :: rest; files := files w; clock := clock w; log := log w |}.

Definition add_artist (a : artist) (f : fig) : fig :=
  {| figsize := figsize f; artists := artists f ++ [a]; title := title f;
     legend := legend f; grid := grid f |}.

(** The effect of a call that returns normally. *)
Definition effect (c : call) (w : world) : world :=
  match c with
  | PltFigure size =>
      {| open_figures := new_fig size :: open_figures w;
         files := files w; clock := clock w; log := log w |}
  | PltPlot x y label color lw => on_current (add_artist (Line2D x y label color lw)) w
  | PltAxhline y color ls lw label => on_current (add_artist (HLine y color ls lw label)) w
  | PltTitle s =>
      on_current (λ f, {| figsize := figsize f; artists := artists f; title := Some s;
                          legend := legend f; grid := grid f |}) w
  | PltLegend =>
      on_current (λ f, {| figsize := figsize f; artists := artists f; title := title f;
                          legend := true; grid := grid f |}) w
  | PltGrid visible alpha =>
      on_current (λ f, {| figsize := figsize f; artists := artists f; title := title f;
                          legend := legend f;
                          grid := if visible then Some alpha else None |}) w
  | PltSavefig fname _ _ =>
      let '(f, rest) := gcf w in
      {| open_figures := f :: rest; files := <[fname := f]> (files w);
         clock := clock w; log := log w |}
  | PltClose =>
      {| open_figures := tail (open_figures w);
         files := files w; clock := clock w; log := log w |}
  end.

(** Computations that read and change the world and may raise. *)
Definition M (A : Type) : Type := world → result A * world.

#[export] Instance M_ret : MRet M := λ A a w, (Ok a, w).
#[export] Instance M_bind : MBind M := λ A B k m w,
  match m w with
  | (Ok a, w') => k a w'
  | (Raise e, w') => (Raise e, w')
  end.

(** A pure built-in that may raise. *)
Definition lift {A} (r : result A) : M A := λ w, (r, w).

(** [try: body except Exception as e: handler(e)] *)
Definition try_except {A} (body : M A) (handler : pyexn → M A) : M A := λ w,
  match body w with
  | (Ok a, w') => (Ok a, w')
  | (Raise e, w') => handler e w'
  end.

(** [time.time()] *)
Definition time_time : M float := λ w, (Ok (clock w), w).

(** [logger.error(msg)] *)
Definition logger_error (msg : string) : M unit := λ w,
  (Ok (), {| open_figures := open_figures w; files := files w; clock := clock w;
             log := log w ++ [msg] |}).

Section Backend.
(** Whether matplotlib raises on a call, in a given state, is matplotlib's
    (and the file system's) business. A call that raises leaves the state as
    it was. *)
Variable fails : call → world → option pyexn.

Definition plt (c : call) : M unit := λ w,
  match fails c w with
  | Some e => (Raise e, w)
  | None => (Ok (), effect c w)
  end.
End Backend.

End Plt.

(** ** The chart renderer *)

Module Chart.
Import Py Plt.

Definition chart_error_png : string := "/tmp/chart_error.png".

(** The renderer returns the fallback path but never writes the file: the
    placeholder has to be there beforehand. *)
Definition keeps_fallback {A} (m : M A) : Prop :=
  ∀ w r w', m w = (r, w') → files w' !! chart_error_png = files w !! chart_error_png.

Section Renderer.
Variable repr_other : pyval → string.
Variable fails : call → world → option pyexn.

#[local] Abbreviation plt := (plt fails).
#[local] Abbreviation str := (str repr_other).

(** The body of the [try] block of [create_binary_chart], statement by
    statement. *)
Definition render (signal : pyval) : M string :=
  plt (PltFigure (10, 6)) ;;
  prices ← lift (getitem signal "prices") ;
  analysis ← lift (getitem signal "analysis") ;
  n ← lift (len prices) ;
  let x := range n in
  plt (PltPlot x prices "Price" "blue" 2) ;;
  y10 ← lift (getitem analysis "sma_10") ;
  v10 ← lift (getitem analysis "sma_10") ;
  l10 ← lift (format_spec_f 4 v10) ;
  plt (PltAxhline y10 "orange" "--" None ("SMA 10: " +:+ l10)) ;;
  y20 ← lift (getitem analysis "sma_20") ;
  v20 ← lift (getitem analysis "sma_20") ;
  l20 ← lift (format_spec_f 4 v20) ;
  plt (PltAxhline y20 "red" "--" None ("SMA 20: " +:+ l20)) ;;
  yc ← lift (getitem signal "current_price") ;
  vc ← lift (getitem signal "current_price") ;
  lc ← lift (format_spec_f 4 vc) ;
  plt (PltAxhline yc "green" "-" (Some 2) ("Current: " +:+ lc)) ;;
  market_type ← lift (get signal "market_type" (PyStr "forex")) ;
  let market_label := if eq_str market_type "otc" then "OTC" else "Forex" in
  direction ← lift (getitem signal "direction") ;
  let direction_text := if eq_str direction "HIGH" then "HIGH (CALL)" else "LOW (PUT)" in
  pair ← lift (getitem signal "pair") ;
  expiry_minutes ← lift (getitem signal "expiry_minutes") ;
  confidence ← lift (getitem signal "confidence") ;
  percent ← lift (mul_100 confidence) ;
  conf ← lift (format_spec_f 1 percent) ;
  plt (PltTitle ("BINARY: " +:+ str pair +:+ " - " +:+ direction_text +:+ " | " +:+
                 str expiry_minutes +:+ "min | Conf: " +:+ conf +:+ "%")) ;;
  plt PltLegend ;;
  plt (PltGrid true 0.3%float) ;;
  now ← time_time ;
  seconds ← lift (int_of_float now) ;
  let filename := "/tmp/binary_chart_" +:+ pretty seconds +:+ ".png" in
  plt (PltSavefig filename 150 "tight") ;;
  plt PltClose ;;
  mret filename.

(** [async def create_binary_chart(self, signal: Dict) -> str]. The body
    has no [await]: once the coroutine is awaited it runs to its [return]
    in one piece. *)
Definition create_binary_chart (signal : pyval) : M string :=
  try_except (render signal)
    (λ e, logger_error ("Chart creation error: " +:+ exn_message e) ;;
          mret chart_error_png).

(** [depicts signal f]: the figure [f] is the drawing of [signal] that the
    statements of [render] make, in their order. *)
Definition depicts (signal : pyval) (f : fig) : Prop :=
  ∃ prices n analysis sma10 l10 sma20 l20 price lc direction pair minutes
    confidence percent conf,
    getitem signal "prices" = Ok prices ∧ len prices = Ok n ∧
    getitem signal "analysis" = Ok analysis ∧
    getitem analysis "sma_10" = Ok sma10 ∧ format_spec_f 4 sma10 = Ok l10 ∧
    getitem analysis "sma_20" = Ok sma20 ∧ format_spec_f 4 sma20 = Ok l20 ∧
    getitem signal "current_price" = Ok price ∧ format_spec_f 4 price = Ok lc ∧
    getitem signal "direction" = Ok direction ∧
    getitem signal "pair" = Ok pair ∧
    getitem signal "expiry_minutes" = Ok minutes ∧
    getitem signal "confidence" = Ok confidence ∧
    mul_100 confidence = Ok percent ∧ format_spec_f 1 percent = Ok conf ∧
    f = {| figsize := (10, 6);
           artists :=
             [ Line2D (range n) prices "Price" "blue" 2;
               HLine sma10 "orange" "--" None ("SMA 10: " +:+ l10);
               HLine sma20 "red" "--" None ("SMA 20: " +:+ l20);
               HLine price "green" "-" (Some 2) ("Current: " +:+ lc) ];
           title :=
             Some ("BINARY: " +:+ str pair +:+ " - " +:+
                   (if eq_str direction "HIGH" then "HIGH (CALL)" else "LOW (PUT)") +:+
                   " | " +:+ str minutes +:+ "min | Conf: " +:+ conf +:+ "%");
           legend := true;
           grid := Some 0.3%float |}.

End Renderer.

End Chart.

(** ** The database that [setup_database] creates *)

Module Sql.

Inductive coltype := INTEGER | TEXT | REAL | TIMESTAMP.

(** Stored values. [Int n] is an INTEGER, which SQLite keeps in 64 bits;
    [Real q] a finite REAL, by its value; [Timestamp t] the text that
    CURRENT_TIMESTAMP yields at instant [t] (seconds since the epoch). *)
Inductive value :=
| Null
| Int (n : Z)
| Real (q : Q)
| Text (s : string)
| Timestamp (t : Z).

Inductive default_clause :=
| NoDefault
| Default (v : value)
| DefaultCurrentTimestamp.

Record column := Column {
  col_name : string;
  col_type : coltype;
  col_default : default_clause;
  col_primary_key : bool;
  col_autoincrement : bool
}.

Record foreign_key := ForeignKey {
  fk_column : string;
  fk_table : string;
  fk_target : string
}.

Record table := Table {
  tbl_name : string;
  tbl_columns : list column;
  tbl_unique : list (list string);
  tbl_foreign_keys : list foreign_key
}.

(** Column definitions as they are written in the DDL. *)
Definition col (name : string) (ty : coltype) : column :=
  Column name ty NoDefault false false.
Definition col_def (name : string) (ty : coltype) (v : value) : column :=
  Column name ty (Default v) false false.
Definition col_now (name : string) (ty : coltype) : column :=
  Column name ty DefaultCurrentTimestamp false false.
Definition col_pk (name : string) (ty : coltype) (autoincrement : bool) : column :=
  Column name ty NoDefault true autoincrement.

(** CREATE TABLE IF NOT EXISTS users (...) *)
Definition users : table :=
  Table "users"
    [ col_pk "user_id" INTEGER false;
      col "username" TEXT;
      col "first_name" TEXT;
      col "last_name" TEXT;
      col_def "risk_level" TEXT (Text "medium");
      col_def "preferred_pairs" TEXT (Text "EUR/USD,GBP/USD");
      col_def "notification_enabled" INTEGER (Int 1);
      col_def "is_premium" INTEGER (Int 0);
      col "premium_until" TIMESTAMP;
      col_now "joined_date" TIMESTAMP;
      col_def "total_signals" INTEGER (Int 0);
      col_def "successful_signals" INTEGER (Int 0);
      col_now "last_active" TIMESTAMP;
      col_def "language_code" TEXT (Text "en") ]
    [] [].

(** CREATE TABLE IF NOT EXISTS signals (...) *)
Definition signals : table :=
  Table "signals"
    [ col_pk "id" INTEGER true;
      col "pair" TEXT;
      col "direction" TEXT;
      col "expiry_time" TIMESTAMP;
      col "confidence" REAL;
      col "price" REAL;
      col "stop_loss" REAL;
      col "take_profit" REAL;
      col_def "signal_type" TEXT (Text "regular");
      col "strategy" TEXT;
      col_now "created_at" TIMESTAMP;
      col_def "success" INTEGER Null;
      col_def "actual_result" TEXT Null;
      col_def "profit_loss" REAL Null ]
    [] [].

(** CREATE TABLE IF NOT EXISTS user_signals (...): two foreign keys, no
    primary key and no UNIQUE clause. *)
Definition user_signals : table :=
  Table "user_signals"
    [ col "user_id" INTEGER;
      col "signal_id" INTEGER;
      col_now "received_at" TIMESTAMP;
      col_def "action_taken" TEXT (Text "viewed");
      col_def "result_noted" INTEGER (Int 0) ]
    []
    [ ForeignKey "user_id" "users" "user_id";
      ForeignKey "signal_id" "signals" "id" ].

(** CREATE TABLE IF NOT EXISTS channel_subs (...) *)
Definition channel_subs : table :=
  Table "channel_subs"
    [ col_pk "user_id" INTEGER false;
      col "channel_username" TEXT;
      col_def "subscribed" INTEGER (Int 0);
      col_now "last_checked" TIMESTAMP ]
    []
    [ ForeignKey "user_id" "users" "user_id" ].

(** *** Names *)

(** SQLite compares the names of tables and columns without regard to the
    case of the ASCII letters. *)
Definition lower_ascii (a : Ascii.ascii) : Ascii.ascii :=
  let n := Ascii.N_of_ascii a in
  if ((65 <=? n) && (n <=? 90))%N then Ascii.ascii_of_N (n + 32) else a.

Fixpoint lower (s : string) : string :=
  match s with
  | EmptyString => EmptyString
  | String a s' => String (lower_ascii a) (lower s')
  end.

Definition same_name (a b : string) : bool := String.eqb (lower a) (lower b).

(** A row gives a value to every column, in the order of the schema. The
    columns and values of an INSERT are written the same way. *)
Definition row := list (string * value).

(** The first value under a name. *)
Fixpoint cell (name : string) (r : row) : option value :=
  match r with
  | [] => None
  | (c, v) :: r' => if same_name c name then Some v else cell name r'
  end.

Fixpoint set_cell (name : string) (v : value) (r : row) : row :=
  match r with
  | [] => []
  | (c, v') :: r' =>
      if same_name c name then (c, v) :: r' else (c, v') :: set_cell name v r'
  end.

(** *** The library *)

(** What is left to SQLite itself: the number it reads in a text that is a
    numeric literal (an integer when the text is one and fits 64 bits), the
    text it writes for a REAL, and the unused rowid its random search finds
    once a table holds the largest one. *)
Inductive number :=
| Integer (n : Z)
| Float (q : Q).

Record library := Library {
  numeric_text : string → option number;
  real_text : Q → string;
  random_rowid : list Z → option Z
}.

(** A database file and its connection: the tables by name in lower case
    (schema and rows), the rowids of the rows of the tables that have no
    INTEGER PRIMARY KEY, the AUTOINCREMENT counters (sqlite_sequence), the
    connection's foreign_keys pragma and the library behind it. Statements
    are committed one by one. *)
Record database := Database {
  tables : gmap string (table * list row);
  hidden_rowids : gmap string (list Z);
  sequence : gmap string Z;
  foreign_keys : bool;
  engine : library
}.

(** [sqlite3.connect] on a file that does not exist yet. Foreign keys are
    not enforced unless the connection turns the pragma on, which
    [setup_database] never does. *)
Definition connect (lib : library) : database :=
  {| tables := ∅; hidden_rowids := ∅; sequence := ∅; foreign_keys := false;
     engine := lib |}.

Definition create_table_if_not_exists (t : table) (d : database) : database :=
  match tables d !! lower (tbl_name t) with
  | Some _ => d
  | None =>
      {| tables := <[lower (tbl_name t) := (t, [])]> (tables d);
         hidden_rowids := hidden_rowids d; sequence := sequence d;
         foreign_keys := foreign_keys d; engine := engine d |}
  end.

Definition setup_database (d : database) : database :=
  create_table_if_not_exists channel_subs
    (create_table_if_not_exists user_signals
      (create_table_if_not_exists signals
        (create_table_if_not_exists users
          {| tables := tables d; hidden_rowids := hidden_rowids d;
             sequence := sequence d; foreign_keys := false; engine := engine d |}))).

(** *** Values and column affinity *)

Definition max_rowid : Z := 9223372036854775807.
Definition min_integer : Z := -9223372036854775808.

Definition int64 (n : Z) : bool := (min_integer <=? n) && (n <=? max_rowid).

(** What [sqlite3] binds to a parameter: a Python int outside 64 bits raises
    OverflowError before the statement runs. *)
Definition bindable (v : value) : bool :=
  match v with
  | Int n => int64 n
  | _ => true
  end.

(** A REAL that is a whole number strictly between the least and the largest
    integer is stored as that integer in a column of INTEGER or NUMERIC
    affinity. *)
Definition integer_of_real (q : Q) : option Z :=
  let n := Qnum q / Z.pos (Qden q) in
  if (Qnum q mod Z.pos (Qden q) =? 0) && (min_integer <? n) && (n <? max_rowid)
  then Some n else None.

(** The binary64 number nearest to an integer. *)
Definition binary64 (n : Z) : Z :=
  let k := Z.log2 (Z.abs n) - 52 in
  if k <=? 0 then n else Z.sgn n * (Py.round_half_even (Z.abs n) (2 ^ k) * 2 ^ k).

(** The affinity of a column: INTEGER, TEXT and REAL as declared; TIMESTAMP
    is none of SQLite's type names, which gives NUMERIC affinity: like
    INTEGER here. The value as the column stores it. The text of a
    [Timestamp] is no numeric literal. *)
Definition convert (lib : library) (ty : coltype) (v : value) : value :=
  match ty, v with
  | (INTEGER | TIMESTAMP), Real q =>
      match integer_of_real q with Some n => Int n | None => v end
  | (INTEGER | TIMESTAMP), Text s =>
      match numeric_text lib s with
      | Some (Integer n) => if int64 n then Int n else v
      | Some (Float q) =>
          match integer_of_real q with Some n => Int n | None => Real q end
      | None => v
      end
  | REAL, Int n => Real (inject_Z (binary64 n))
  | REAL, Text s =>
      match numeric_text lib s with
      | Some (Integer n) => if int64 n then Real (inject_Z (binary64 n)) else v
      | Some (Float q) => Real q
      | None => v
      end
  | TEXT, Int n => Text (pretty n)
  | TEXT, Real q => Text (real_text lib q)
  | _, _ => v
  end.

Definition value_eqb (a b : value) : bool :=
  match a, b with
  | Int m, Int n => m =? n
  | Real p, Real q => Qeq_bool p q
  | Text s, Text t => String.eqb s t
  | Timestamp s, Timestamp t => s =? t
  | _, _ => false
  end.

Definition default_value (now : Z) (c : column) : value :=
  match col_default c with
  | NoDefault => Null
  | Default v => v
  | DefaultCurrentTimestamp => Timestamp now
  end.

(** *** Rowids *)

Definition has_column (t : table) (name : string) : bool :=
  existsb (λ c, same_name (col_name c) name) (tbl_columns t).

(** Every primary key of the schema is an INTEGER PRIMARY KEY: the column
    is the rowid of the table. *)
Definition primary_key (t : table) : option column :=
  List.find col_primary_key (tbl_columns t).

Definition autoincrement (t : table) : bool :=
  match primary_key t with
  | Some pk => col_autoincrement pk
  | None => false
  end.

(** rowid, oid and _rowid_ name the rowid of a table that has no column of
    that name. *)
Definition rowid_alias (name : string) : bool :=
  same_name name "rowid" || same_name name "oid" || same_name name "_rowid_".

Definition names_rowid (t : table) (name : string) : bool :=
  match primary_key t with
  | Some pk => same_name (col_name pk) name
  | None => false
  end || (rowid_alias name && negb (has_column t name)).

(** The rowid an INSERT gives: when several of its names are names of the
    rowid, the last one counts. *)
Fixpoint given_rowid (t : table) (given : row) : option value :=
  match given with
  | [] => None
  | (c, v) :: rest =>
      match given_rowid t rest with
      | Some v' => Some v'
      | None => if names_rowid t c then Some v else None
      end
  end.

Definition rowids (pk : string) (rs : list row) : list Z :=
  omap (λ r, match cell pk r with Some (Int n) => Some n | _ => None end) rs.

(** The rowids that the rows of a table have. *)
Definition used_rowids (t : table) (rs : list row) (hidden : list Z) : list Z :=
  match primary_key t with
  | Some pk => rowids (col_name pk) rs
  | None => hidden
  end.

Definition largest (l : list Z) : option Z :=
  match l with
  | [] => None
  | n :: rest => Some (foldr Z.max n rest)
  end.

(** The rowid SQLite chooses: 1 in an empty table, else one more than the
    largest in use; once that is the largest possible one, an unused one
    found at random. With AUTOINCREMENT it is also larger than the counter,
    and nothing is chosen once the counter or a rowid is the largest
    possible one (the statement fails, the table is full). *)
Definition fresh_rowid (lib : library) (auto : bool) (used : list Z) (seq : Z) : option Z :=
  let next := match largest used with Some m => m + 1 | None => 1 end in
  let full := match largest used with Some m => max_rowid <=? m | None => false end in
  if auto then
    if (seq =? max_rowid) || full then None else Some (Z.max next (seq + 1))
  else if full then
    match random_rowid lib used with
    | Some n => if int64 n then Some n else None
    | None => None
    end
  else Some next.

(** The rowid of the new row: chosen when the statement gives none or NULL;
    else the value given, as an integer if it is one after conversion;
    another value is refused (datatype mismatch). *)
Definition new_rowid (lib : library) (auto : bool) (used : list Z) (seq : Z)
    (given : option value) : option Z :=
  match given with
  | None | Some Null => fresh_rowid lib auto used seq
  | Some v =>
      match convert lib INTEGER v with
      | Int n => Some n
      | _ => None
      end
  end.

(** The row an INSERT builds: the rowid in the primary key, and in the other
    columns the first value the statement gives under the column's name,
    else the default, as the column's affinity stores it. *)
Definition build_row (lib : library) (now : Z) (cols : list column) (rowid : Z)
    (given : row) : row :=
  map (λ c, (col_name c,
             if col_primary_key c then Int rowid
             else convert lib (col_type c)
                    (default (default_value now c) (cell (col_name c) given)))) cols.

(** Two rows collide on a key when they agree on all its columns, none of
    them NULL. *)
Definition collide (key : list string) (r1 r2 : row) : bool :=
  forallb (λ c, match cell c r1, cell c r2 with
                | Some a, Some b => value_eqb a b
                | _, _ => false
                end) key.

Definition keys (t : table) : list (list string) :=
  match primary_key t with
  | Some pk => [col_name pk] :: tbl_unique t
  | None => tbl_unique t
  end.

(** PRIMARY KEY and UNIQUE: the new row collides with no row of the table. *)
Definition unique_ok (t : table) (rs : list row) (r : row) : bool :=
  forallb (λ key, negb (existsb (collide key r) rs)) (keys t).

(** FOREIGN KEY, when the pragma is on: a non-NULL reference has a target. *)
Definition references_ok (d : database) (t : table) (r : row) : bool :=
  negb (foreign_keys d) ||
  forallb (λ fk,
    match cell (fk_column fk) r with
    | None | Some Null => true
    | Some v =>
        match tables d !! lower (fk_table fk) with
        | Some (_, targets) =>
            existsb (λ r', match cell (fk_target fk) r' with
                           | Some v' => value_eqb v v'
                           | None => false
                           end) targets
        | None => false
        end
    end) (tbl_foreign_keys t).

(** *** Statements *)

(** INSERT INTO tname (columns of [given]) VALUES (values of [given]), at
    instant [now], the values bound as parameters. [None] is an error (a
    value that cannot be bound, no such table or column, datatype mismatch,
    table full, constraint failed); the database is then unchanged. *)
Definition insert (tname : string) (given : row) (now : Z) (d : database) : option database :=
  match tables d !! lower tname with
  | None => None
  | Some (t, rs) =>
      if negb (forallb (λ cv, (has_column t cv.1 || rowid_alias cv.1) && bindable cv.2) given)
      then None else
      let used := used_rowids t rs (default [] (hidden_rowids d !! lower tname)) in
      let seq := default 0 (sequence d !! lower tname) in
      match new_rowid (engine d) (autoincrement t) used seq (given_rowid t given) with
      | None => None
      | Some n =>
          let r := build_row (engine d) now (tbl_columns t) n given in
          if negb (bool_decide (n ∈ used)) && unique_ok t rs r && references_ok d t r then
            Some {| tables := <[lower tname := (t, rs ++ [r])]> (tables d);
                    hidden_rowids :=
                      match primary_key t with
                      | Some _ => hidden_rowids d
                      | None => <[lower tname := used ++ [n]]> (hidden_rowids d)
                      end;
                    sequence :=
                      if autoincrement t then <[lower tname := Z.max seq n]> (sequence d)
                      else sequence d;
                    foreign_keys := foreign_keys d; engine := engine d |}
          else None
      end
  end.

Definition column_type (t : table) (name : string) : coltype :=
  match List.find (λ c, same_name (col_name c) name) (tbl_columns t) with
  | Some c => col_type c
  | None => TEXT
  end.

(** The right-hand side of an assignment: a bound parameter, or what SQLite
    computes from the columns of the row. *)
Inductive expr :=
| Param (v : value)
| Computed (f : row → value).

Definition eval (e : expr) (r : row) : value :=
  match e with
  | Param v => v
  | Computed f => f r
  end.

Definition is_bindable (e : expr) : bool :=
  match e with
  | Param v => bindable v
  | Computed _ => true
  end.

(** SET c1 = e1, c2 = e2, ...: every expression reads the row as it was, and
    its value is stored as the column's affinity has it; of two assignments
    to one column the last counts. *)
Definition set_cells (lib : library) (t : table)
    (assignments : list (string * expr)) (r : row) : row :=
  foldl (λ acc ce, set_cell ce.1 (convert lib (column_type t ce.1) (eval ce.2 r)) acc)
        r assignments.

(** UPDATE tname SET assignments WHERE cond, for assignments that leave
    key and referencing columns alone (others are refused here). A
    parameter that cannot be bound is an error, whatever the rows; what is
    computed from a row is a value of SQLite, so an integer outside 64 bits
    is refused. *)
Definition update (tname : string) (assignments : list (string * expr))
    (cond : row → bool) (d : database) : option database :=
  match tables d !! lower tname with
  | None => None
  | Some (t, rs) =>
      if forallb (λ ce, has_column t ce.1
                        && negb (existsb (λ key, existsb (same_name ce.1) key) (keys t))
                        && negb (existsb (λ fk, same_name (fk_column fk) ce.1) (tbl_foreign_keys t)))
                 assignments
         && forallb (λ ce, is_bindable ce.2) assignments
         && forallb (λ r, negb (cond r) || forallb (λ ce, bindable (eval ce.2 r)) assignments) rs
      then Some {| tables := <[lower tname :=
                     (t, map (λ r, if cond r then set_cells (engine d) t assignments r else r) rs)]>
                     (tables d);
                   hidden_rowids := hidden_rowids d; sequence := sequence d;
                   foreign_keys := foreign_keys d; engine := engine d |}
      else None
  end.

Definition rows_of (tname : string) (d : database) : list row :=
  match tables d !! tname with
  | Some (_, rs) => rs
  | None => []
  end.

(** The rowids in use in a table. *)
Definition rowids_of (tname : string) (d : database) : list Z :=
  match tables d !! tname with
  | Some (t, rs) => used_rowids t rs (default [] (hidden_rowids d !! tname))
  | None => []
  end.

(** The statements on the tables of the schema that the bot can issue. *)
Inductive statement :=
| Insert (tname : string) (given : row)
| Update (tname : string) (assignments : list (string * expr)) (cond : row → bool).

Definition exec (now : Z) (s : statement) (d : database) : option database :=
  match s with
  | Insert tname given => insert tname given now d
  | Update tname assignments cond => update tname assignments cond d
  end.

(** A sequence of statements, each at its time; the first error stops it. *)
Fixpoint exec_all (script : list (Z * statement)) (d : database) : option database :=
  match script with
  | [] => Some d
  | (now, s) :: rest => exec now s d ≫= exec_all rest
  end.

(** The database states the bot can be in: a fresh file set up by
    [setup_database], then any statements that succeed, and restarts. *)
Inductive reachable : database → Prop :=
| reach_fresh lib : reachable (setup_database (connect lib))
| reach_exec d d' now s : reachable d → exec now s d = Some d' → reachable d'
| reach_restart d : reachable d → reachable (setup_database d).

(** What [setup_database] establishes and no statement undoes: the four
    tables exist with the schemas of the DDL, and foreign keys are not
    enforced. *)
Definition as_declared (d : database) : Prop :=
  foreign_keys d = false ∧
  ∀ t, t ∈ [users; signals; user_signals; channel_subs] →
       ∃ rs, tables d !! tbl_name t = Some (t, rs).

(** The pair that identifies a delivery record. *)
Definition delivery (r : row) : option value * option value :=
  (cell "user_id" r, cell "signal_id" r).

(** No two rows of user_signals with one (user_id, signal_id). *)
Definition deliveries_unique (d : database) : Prop :=
  NoDup (delivery <$> rows_of "user_signals" d).

Definition delivery_row (uid sid now : Z) : row :=
  [ ("user_id", Int uid); ("signal_id", Int sid); ("received_at", Timestamp now);
    ("action_taken", Text "viewed"); ("result_noted", Int 0) ].

(** The rows of a table have integer keys, no two of them equal. *)
Definition keyed (k : string) (rs : list row) : Prop :=
  ∃ ids, cell k <$> rs = (λ n, Some (Int n)) <$> ids ∧ NoDup ids.

End Sql.

(** ** The signal pipeline *)

Module Core.
Import Sql.

Inductive direction := HIGH | LOW | NEUTRAL.
Inductive signal_type := Regular | Premium | Otc.

Definition direction_text (d : direction) : string :=
  match d with HIGH => "HIGH" | LOW => "LOW" | NEUTRAL => "NEUTRAL" end.

Definition signal_type_text (ty : signal_type) : string :=
  match ty with Regular => "regular" | Premium => "premium" | Otc => "otc" end.

(** *** Analysis Engine *)

Record analysis := Analysis {
  sma_10 : Q;
  sma_20 : Q;
  current_price : Q;
  trend : direction;
  confidence : Q
}.

Inductive analysis_error := InsufficientDataError.

Definition min_samples : nat := 20.

Definition Qlt_bool (a b : Q) : bool := negb (Qle_bool b a).

Definition mean (l : list Q) : Q :=
  (foldr Qplus 0 l / inject_Z (Z.of_nat (length l)))%Q.

(** Modelled from the spec: the simple moving average over the last [n]
    samples, as the Analysis Engine (not in bot.py) computes it. *)
Definition sma (n : nat) (prices : list Q) : Q :=
  mean (drop (length prices - n) prices).

Definition clamp01 (q : Q) : Q := Qmax 0 (Qmin 1 q).

Section Engine.
(** The weighting that turns the separation of the current price and the
    two averages into a raw score is a tunable parameter. *)
Variable score : Q → Q → Q → Q.

(** Modelled from the spec: the Analysis Engine, whose method is not among
    those kept in bot.py. At least 20 samples, oldest first; averages over
    the last 10 and the last 20; HIGH when current_price > sma_10 > sma_20,
    LOW on the mirrored condition, NEUTRAL otherwise; the confidence is the
    score clamped to [0,1]. *)
Definition analyze (prices : list Q) : analysis_error + analysis :=
  if (length prices <? min_samples)%nat then inl InsufficientDataError
  else
    let s10 := sma 10 prices in
    let s20 := sma 20 prices in
    let cur := List.last prices 0%Q in
    let dir :=
      if Qlt_bool s10 cur && Qlt_bool s20 s10 then HIGH
      else if Qlt_bool cur s10 && Qlt_bool s10 s20 then LOW
      else NEUTRAL in
    inr {| sma_10 := s10; sma_20 := s20; current_price := cur; trend := dir;
           confidence := clamp01 (score cur s10 s20) |}.
End Engine.

(** *** Signal Builder *)

Record config := Config {
  min_confidence : Q;
  expiry_minutes : Z;
  cooldown_window : Z;
  channel_required : bool;
  recheck_interval : Z
}.

Record signal := Signal {
  sig_id : Z;
  sig_pair : string;
  sig_direction : direction;
  sig_expiry_time : Z;
  sig_confidence : Q;
  sig_price : Q;
  sig_type : signal_type;
  sig_strategy : string
}.

Inductive build_result :=
| NoSignal
| Built (s : signal)
| PersistenceError.

Definition strategy_tag (d : direction) : string :=
  match d with
  | HIGH => "sma_uptrend"
  | LOW => "sma_downtrend"
  | NEUTRAL => "none"
  end.

(** [cursor.lastrowid] after an INSERT into signals. *)
Definition lastrowid (d : database) : Z :=
  match List.last (rows_of "signals" d) [] !! 0%nat with
  | Some (_, Int n) => n
  | _ => 0
  end.

(** Modelled from the spec: the Signal Builder, whose method is not among
    those kept in bot.py. A NEUTRAL direction or a confidence below
    [min_confidence] gives "no signal"; otherwise one row is inserted in
    signals, with expiry_time = now + expiry_minutes, and the signal comes
    back with its generated id. *)
Definition signal_builder (cfg : config) (a : analysis) (pair : string)
    (ty : signal_type) (now : Z) (d : database) : database * build_result :=
  match trend a with
  | NEUTRAL => (d, NoSignal)
  | dir =>
      if Qlt_bool (confidence a) (min_confidence cfg) then (d, NoSignal)
      else
        let expiry := now + 60 * expiry_minutes cfg in
        match insert "signals"
                [ ("pair", Text pair);
                  ("direction", Text (direction_text dir));
                  ("expiry_time", Timestamp expiry);
                  ("confidence", Real (confidence a));
                  ("price", Real (current_price a));
                  ("signal_type", Text (signal_type_text ty));
                  ("strategy", Text (strategy_tag dir)) ] now d with
        | Some d' =>
            (d', Built {| sig_id := lastrowid d'; sig_pair := pair; sig_direction := dir;
                          sig_expiry_time := expiry; sig_confidence := confidence a;
                          sig_price := current_price a; sig_type := ty;
                          sig_strategy := strategy_tag dir |})
        | None => (d, PersistenceError)
        end
  end.

(** The row that the Signal Builder's INSERT stores under the schema of
    signals, with its generated id. *)
Definition signal_row (id : Z) (pair : string) (dir : direction) (expiry : Z)
    (conf price : Q) (ty : signal_type) (now : Z) : row :=
  [ ("id", Int id); ("pair", Text pair); ("direction", Text (direction_text dir));
    ("expiry_time", Timestamp expiry); ("confidence", Real conf); ("price", Real price);
    ("stop_loss", Null); ("take_profit", Null);
    ("signal_type", Text (signal_type_text ty)); ("strategy", Text (strategy_tag dir));
    ("created_at", Timestamp now); ("success", Null); ("actual_result", Null);
    ("profit_loss", Null) ].

Inductive outcome :=
| Failed (e : analysis_error)
| Analysed (a : analysis) (r : build_result).

(** Modelled from the spec: one pass of the data flow Price Series →
    Analysis Engine → Signal Builder → Persistence Store. *)
Definition generate_signal (score : Q → Q → Q → Q) (cfg : config) (pair : string)
    (ty : signal_type) (prices : list Q) (now : Z) (d : database) : database * outcome :=
  match analyze score prices with
  | inl e => (d, Failed e)
  | inr a =>
      let '(d', r) := signal_builder cfg a pair ty now d in
      (d', Analysed a r)
  end.

(** *** Outcome resolution *)

Definition is_null (v : option value) : bool :=
  match v with Some Null => true | _ => false end.

Definition expired (now : Z) (r : row) : bool :=
  match cell "expiry_time" r with
  | Some (Timestamp e) => e <? now
  | _ => false
  end.

Definition has_id (id : Z) (r : row) : bool :=
  match cell "id" r with
  | Some (Int n) => n =? id
  | _ => false
  end.

(** Modelled from the spec: the outcome fields that the resolution job (not
    in bot.py) writes: SET success = ?, actual_result = ?, profit_loss = ? *)
Definition outcome_assignments (won : bool) (actual_result : string) (profit_loss : Q)
    : list (string * expr) :=
  [ ("success", Param (Int (if won then 1 else 0)));
    ("actual_result", Param (Text actual_result));
    ("profit_loss", Param (Real profit_loss)) ].

(** Modelled from the spec: the resolution job that is out of the core's
    scope and not in bot.py. It sets the outcome fields of a signal once,
    after its expiry_time. *)
Definition resolve (id : Z) (won : bool) (actual_result : string) (profit_loss : Q)
    (now : Z) (d : database) : database :=
  default d
    (update "signals" (outcome_assignments won actual_result profit_loss)
       (λ r, has_id id r && expired now r && is_null (cell "success" r)) d).

(** *** Eligibility Gate and Delivery Dispatcher *)

Record user := User {
  user_id : Z;
  notification_enabled : bool;
  is_premium : bool;
  premium_until : option Z;
  preferred_pairs : list string
}.

Record subscription := Subscription {
  subscribed : bool;
  last_checked : Z
}.

Inductive reason :=
| NotificationsDisabled
| SubscriptionUnverified
| NotSubscribed
| PremiumRequired
| Cooldown
| PairNotPreferred.

Inductive decision :=
| ELIGIBLE
| Rejected (why : reason).

(** Modelled from the spec: gates 1 to 3 of the Eligibility Gate's decision
    sequence (notifications, channel subscription, premium), whose method is
    not in bot.py: the first that fails, if any. *)
Definition earlier_gates (cfg : config) (now : Z) (u : user) (sub : subscription)
    (s : signal) : option reason :=
  if negb (notification_enabled u) then Some NotificationsDisabled
  else if channel_required cfg && (recheck_interval cfg <? now - last_checked sub)
  then Some SubscriptionUnverified
  else if channel_required cfg && negb (subscribed sub) then Some NotSubscribed
  else if match sig_type s with
          | Premium =>
              negb (is_premium u &&
                    match premium_until u with Some p => now <? p | None => false end)
          | _ => false
          end
  then Some PremiumRequired
  else None.

(** Modelled from the spec: gate 4 of the Eligibility Gate, which is not in
    bot.py: the window since the user's last delivery has not elapsed. *)
Definition cooling_down (cfg : config) (cooldown : gmap Z Z) (now : Z) (u : user) : bool :=
  match cooldown !! user_id u with
  | Some last => now <? last + cooldown_window cfg
  | None => false
  end.

(** Modelled from the spec: the Eligibility Gate, whose method is not among
    those kept in bot.py: five checks in order, the first failure decides. *)
Definition eligibility (cfg : config) (cooldown : gmap Z Z) (now : Z) (u : user)
    (sub : subscription) (s : signal) : decision :=
  match earlier_gates cfg now u sub s with
  | Some why => Rejected why
  | None =>
      if cooling_down cfg cooldown now u then Rejected Cooldown
      else if match preferred_pairs u with
              | [] => false
              | pairs => negb (existsb (String.eqb (sig_pair s)) pairs)
              end
      then Rejected PairNotPreferred
      else ELIGIBLE
  end.

(** The bot's state: the database connection and the in-memory cooldown
    map, user id to time of last delivery. *)
Record state := State {
  conn : database;
  user_cooldown : gmap Z Z
}.

(** [BinaryTradingBot.__init__]: [self.user_cooldown = {}] and
    [self.setup_database()], on the database file [d]. *)
Definition init (d : database) : state :=
  {| conn := setup_database d; user_cooldown := ∅ |}.

(** Modelled from the spec: what the Delivery Dispatcher records for a
    delivery: the cooldown timestamp, a user_signals row and the user's
    counter. *)
Definition deliver (u : user) (s : signal) (now : Z) (st : state) : state :=
  let d1 := default (conn st)
              (insert "user_signals"
                 [("user_id", Int (user_id u)); ("signal_id", Int (sig_id s))] now (conn st)) in
  let d2 := default d1
              (update "users"
                 [("total_signals", Computed (λ r, match cell "total_signals" r with
                                                   | Some (Int n) => Int (n + 1)
                                                   | _ => Null
                                                   end))]
                 (λ r, match cell "user_id" r with
                       | Some (Int n) => n =? user_id u
                       | _ => false
                       end) d1) in
  {| conn := d2; user_cooldown := <[user_id u := now]> (user_cooldown st) |}.

(** Modelled from the spec: the gate, then the delivery when it says
    ELIGIBLE; a rejection changes nothing. *)
Definition dispatch (cfg : config) (u : user) (sub : subscription) (s : signal)
    (now : Z) (st : state) : state * decision :=
  match eligibility cfg (user_cooldown st) now u sub s with
  | ELIGIBLE => (deliver u s now st, ELIGIBLE)
  | Rejected why => (st, Rejected why)
  end.

(** *** Runs of the bot *)

(** What happens to the bot: the three operations of the pipeline, and a
    restart of the process, which constructs the bot anew ([init]) on the
    database file as it is. *)
Inductive event :=
| Generate (pair : string) (ty : signal_type) (prices : list Q)
| Resolve (id : Z) (won : bool) (actual_result : string) (profit_loss : Q)
| Dispatch (u : user) (sub : subscription) (s : signal)
| Restart.

Definition is_restart (ev : event) : bool :=
  match ev with Restart => true | _ => false end.

Definition step (score : Q → Q → Q → Q) (cfg : config) (now : Z) (ev : event)
    (st : state) : state :=
  match ev with
  | Generate symbol ty prices =>
      {| conn := (generate_signal score cfg symbol ty prices now (conn st)).1;
         user_cooldown := user_cooldown st |}
  | Resolve id won actual_result profit_loss =>
      {| conn := resolve id won actual_result profit_loss now (conn st);
         user_cooldown := user_cooldown st |}
  | Dispatch u sub s => (dispatch cfg u sub s now st).1
  | Restart => init (conn st)
  end.

(** [run score cfg t st]: the bot, started on a fresh database, can be in
    state [st] at time [t]. Time does not go backwards. *)
Inductive run (score : Q → Q → Q → Q) (cfg : config) : Z → state → Prop :=
| run_start lib t : run score cfg t (init (connect lib))
| run_step t st t' ev :
    run score cfg t st → t ≤ t' → run score cfg t' (step score cfg t' ev st)
| run_wait t st t' :
    run score cfg t st → t ≤ t' → run score cfg t' st.

(** The events that follow a given moment, each with its time. *)
Fixpoint play (score : Q → Q → Q → Q) (cfg : config) (evs : list (Z * event))
    (st : state) : state :=
  match evs with
  | [] => st
  | (t, ev) :: rest => play score cfg rest (step score cfg t ev st)
  end.

End Core.

(** ** Construction and start of the bot *)

Module Bot.
Import Py.

(** The attributes of [config.config] that bot.py reads. Their values come
    from the environment, so they are any objects; [validate_config] is
    what the call of the method does: return, or raise. *)
Record config := Config {
  BOT_TOKEN : pyval;
  BOT_USERNAME : pyval;
  CHANNEL_USERNAME : pyval;
  ADMIN_USERNAME : pyval;
  CHANNEL_REQUIRED : pyval;
  PREMIUM_ENABLED : pyval;
  DATABASE_NAME : string;
  validate_config : option pyexn
}.

(** [filters.TEXT & ~filters.COMMAND] *)
Inductive message_filter := TextNotCommand.

(** A handler and the name of the method it calls. *)
Inductive handler :=
| CommandHandler (command : string) (callback : string)
| CallbackQueryHandler (callback : string)
| MessageHandler (filter : message_filter) (callback : string).

Inductive level := INFO | ERROR.

(** The process: the database files by name, the records handed to the
    logger and the lines printed. *)
Record process := Process {
  disk : gmap string Sql.database;
  log : list (level * string);
  stdout : list string
}.

(** The object under construction. The in-memory dictionaries and the set
    are kept as the lists of their items. *)
Record bot := BotObject {
  cfg : config;
  handlers : list handler;
  user_cooldown : gmap Z Z;
  conn : Sql.database;
  session : option pyval;
  last_signal_time : list (pyval * pyval);
  user_analytics : list (pyval * pyval);
  premium_users : list pyval
}.

Definition M (A : Type) : Type := process → result A * process.

#[export] Instance M_ret : MRet M := λ A a p, (Ok a, p).
#[export] Instance M_bind : MBind M := λ A B k m p,
  match m p with
  | (Ok a, p') => k a p'
  | (Raise e, p') => (Raise e, p')
  end.

Definition raise {A} (e : pyexn) : M A := λ p, (Raise e, p).

(** A call into a library that returns or raises. *)
Definition external (outcome : option pyexn) : M unit := λ p,
  match outcome with
  | Some e => (Raise e, p)
  | None => (Ok (), p)
  end.

Definition logger (l : level) (msg : string) : M unit := λ p,
  (Ok (), {| disk := disk p; log := log p ++ [(l, msg)]; stdout := stdout p |}).

Definition print (line : string) : M unit := λ p,
  (Ok (), {| disk := disk p; log := log p; stdout := stdout p ++ [line] |}).

Definition is_ValueError (e : pyexn) : bool :=
  match e with ValueError _ => true | _ => false end.

(** [try: body except ValueError as e: handler(e)] *)
Definition try_except_ValueError {A} (body : M A) (handler : pyexn → M A) : M A := λ p,
  match body p with
  | (Raise e, p') => if is_ValueError e then handler e p' else (Raise e, p')
  | r => r
  end.

(** [try: body except Exception as e: handler(e)] *)
Definition try_except_Exception {A} (body : M A) (handler : pyexn → M A) : M A := λ p,
  match body p with
  | (Raise e, p') => handler e p'
  | r => r
  end.

Section Class.
(** Which methods the class has: bot.py keeps six of them and leaves the
    handlers' callbacks to the rest of the class. *)
Variable defined : string → bool.
(** [Application.builder().token(token).build()], [sqlite3.connect(name)]
    and [application.run_polling()]: each returns or raises. *)
Variable build_application : pyval → option pyexn.
Variable connect_fails : string → option pyexn.
Variable run_polling : list handler → option pyexn.
Variable repr_other : pyval → string.
(** The SQLite library behind [sqlite3]. *)
Variable sqlite : Sql.library.

(** [self.<name>] for a method. *)
Definition method (name : string) : M string :=
  if defined name then mret name
  else raise (AttributeError
                ("'BinaryTradingBot' object has no attribute '" +:+ name +:+ "'")).

(** [self.application.add_handler(...)] on the handlers registered so far. *)
Definition setup_handlers (registered : list handler) : M (list handler) :=
  c ← method "start" ; let hs := registered ++ [CommandHandler "start" c] in
  c ← method "help_command" ; let hs := hs ++ [CommandHandler "help" c] in
  c ← method "send_signal" ; let hs := hs ++ [CommandHandler "signal" c] in
  c ← method "settings" ; let hs := hs ++ [CommandHandler "settings" c] in
  c ← method "user_stats" ; let hs := hs ++ [CommandHandler "stats" c] in
  c ← method "signal_history" ; let hs := hs ++ [CommandHandler "history" c] in
  c ← method "market_analysis" ; let hs := hs ++ [CommandHandler "analysis" c] in
  c ← method "premium_info" ; let hs := hs ++ [CommandHandler "premium" c] in
  c ← method "admin_panel" ; let hs := hs ++ [CommandHandler "admin" c] in
  c ← method "otc_market" ; let hs := hs ++ [CommandHandler "otc" c] in
  c ← method "button_handler" ; let hs := hs ++ [CallbackQueryHandler c] in
  c ← method "handle_message" ; let hs := hs ++ [MessageHandler TextNotCommand c] in
  logger INFO "Handlers setup completed" ;;
  mret hs.

(** [sqlite3.connect(name)]: the file of that name, created if it is not
    there; ":memory:" and the empty name are private to the connection. *)
Definition is_private (name : string) : bool :=
  String.eqb name ":memory:" || String.eqb name "".

(** [setup_database]: the four CREATE TABLE IF NOT EXISTS and the commit. *)
Definition setup_database (name : string) : M Sql.database :=
  external (connect_fails name) ;;
  (λ p,
     let d := Sql.setup_database
                (if is_private name then Sql.connect sqlite
                 else default (Sql.connect sqlite) (disk p !! name)) in
     (Ok d, {| disk := if is_private name then disk p else <[name := d]> (disk p);
               log := log p; stdout := stdout p |})) ≫= λ d,
  logger INFO "Database initialized successfully" ;;
  mret d.

(** [__init__], with [setup_advanced_features] in its place. *)
Definition init (c : config) : M bot :=
  external (build_application (BOT_TOKEN c)) ;;
  let user_cooldown := ∅ in
  hs ← setup_handlers [] ;
  d ← setup_database (DATABASE_NAME c) ;
  let session := None in
  let last_signal_time := [] in
  let user_analytics := [] in
  let premium_users := [] in
  try_except_ValueError
    (external (validate_config c))
    (λ e, logger ERROR ("Configuration error: " +:+ exn_message e) ;; raise e) ;;
  mret {| cfg := c; handlers := hs; user_cooldown := user_cooldown; conn := d;
          session := session; last_signal_time := last_signal_time;
          user_analytics := user_analytics; premium_users := premium_users |}.

(** [run], for the environment variables [environ]. *)
Definition run (environ : gset string) (b : bot) : M unit :=
  print "🤖 Binary Trading Bot Starting..." ;;
  print ("🤖 Bot: @" +:+ str repr_other (BOT_USERNAME (cfg b))) ;;
  print ("📢 Channel: @" +:+ str repr_other (CHANNEL_USERNAME (cfg b))) ;;
  print ("👤 Admin: " +:+ str repr_other (ADMIN_USERNAME (cfg b))) ;;
  print ("🔐 Channel Required: " +:+ str repr_other (CHANNEL_REQUIRED (cfg b))) ;;
  print ("💎 Premium Enabled: " +:+ str repr_other (PREMIUM_ENABLED (cfg b))) ;;
  print (String.concat "" (replicate 50 "=")) ;;
  if decide ("RENDER" ∈ environ) then external (run_polling (handlers b))
  else external (run_polling (handlers b)).

(** The [if __name__ == "__main__":] block. *)
Definition main (environ : gset string) (c : config) : M unit :=
  try_except_Exception
    (b ← init c ; run environ b)
    (λ e, logger ERROR ("Failed to start bot: " +:+ exn_message e) ;;
          print ("❌ Bot startup failed: " +:+ exn_message e)).

End Class.

(** The callbacks that [setup_handlers] asks the class for, in its order. *)
Definition callbacks : list string :=
  [ "start"; "help_command"; "send_signal"; "settings"; "user_stats"; "signal_history";
    "market_analysis"; "premium_info"; "admin_panel"; "otc_market"; "button_handler";
    "handle_message" ].

(** The twelve handlers, as registered when every callback is there. *)
Definition registered_handlers : list handler :=
  [ CommandHandler "start" "start"; CommandHandler "help" "help_command";
    CommandHandler "signal" "send_signal"; CommandHandler "settings" "settings";
    CommandHandler "stats" "user_stats"; CommandHandler "history" "signal_history";
    CommandHandler "analysis" "market_analysis"; CommandHandler "premium" "premium_info";
    CommandHandler "admin" "admin_panel"; CommandHandler "otc" "otc_market";
    CallbackQueryHandler "button_handler";
    MessageHandler TextNotCommand "handle_message" ].

(** The methods that bot.py itself defines. *)
Definition defined_in_bot_py (name : string) : bool :=
  bool_decide (name ∈ ["__init__"; "setup_advanced_features"; "setup_database";
                       "setup_handlers"; "create_binary_chart"; "run"]).

(** The AttributeError for a method the class lacks, and a process with
    one more log record. *)
Definition no_attribute (name : string) : pyexn :=
  AttributeError ("'BinaryTradingBot' object has no attribute '" +:+ name +:+ "'").

Definition logged (l : level) (msg : string) (p : process) : process :=
  {| disk := disk p; log := log p ++ [(l, msg)]; stdout := stdout p |}.

(** The database that [setup_database] leaves in the connection, and the
    process once it is committed. *)
Definition database_of (sqlite : Sql.library) (name : string) (p : process) : Sql.database :=
  Sql.setup_database
    (if is_private name then Sql.connect sqlite
     else default (Sql.connect sqlite) (disk p !! name)).

Definition committed (sqlite : Sql.library) (name : string) (p : process) : process :=
  {| disk := if is_private name then disk p
             else <[name := database_of sqlite name p]> (disk p);
     log := log p; stdout := stdout p |}.

Definition constructed (sqlite : Sql.library) (c : config) (p : process) : bot :=
  {| cfg := c; handlers := registered_handlers; user_cooldown := ∅;
     conn := database_of sqlite (DATABASE_NAME c) p; session := None;
     last_signal_time := []; user_analytics := []; premium_users := [] |}.

End Bot.

(** ** Scenarios *)

Module ChartExamples.
Import Py Plt Chart.

Definition eurusd : pyval :=
  PyDict (list_to_map
    [ ("pair", PyStr "EUR/USD"); ("direction", PyStr "HIGH");
      ("expiry_minutes", PyInt 5); ("confidence", PyFloat 0.85);
      ("current_price", PyFloat 1.0856);
      ("prices", PyList [PyFloat 1.0801; PyFloat 1.0823; PyFloat 1.0856]);
      ("analysis", PyDict (list_to_map
         [("sma_10", PyFloat 1.0841); ("sma_20", PyFloat 1.0823)])) ]).

Definition gbpusd : pyval :=
  PyDict (list_to_map
    [ ("pair", PyStr "GBP/USD"); ("direction", PyStr "LOW");
      ("expiry_minutes", PyInt 3); ("confidence", PyFloat 0.72);
      ("current_price", PyFloat 1.2710); ("market_type", PyStr "otc");
      ("prices", PyList [PyFloat 1.2750; PyFloat 1.2710]);
      ("analysis", PyDict (list_to_map
         [("sma_10", PyFloat 1.2731); ("sma_20", PyFloat 1.2744)])) ]).

(** A signal without its price series. *)
Definition incomplete : pyval :=
  PyDict (list_to_map [("pair", PyStr "EUR/USD"); ("direction", PyStr "HIGH")]).

Definition plain_repr (v : pyval) : string := "<object>".
Definition quiet : call → world → option pyexn := λ _ _, None.
Definition disk_full : call → world → option pyexn := λ c _,
  match c with
  | PltSavefig _ _ _ => Some (LibraryError "[Errno 28] No space left on device")
  | _ => None
  end.

Definition at_time (t : float) (disk : gmap string fig) : world :=
  {| open_figures := []; files := disk; clock := t; log := [] |}.

Definition first_run := create_binary_chart plain_repr quiet eurusd (at_time 1730000000.2 ∅).
Definition second_run :=
  create_binary_chart plain_repr quiet gbpusd (at_time 1730000000.9 (files first_run.2)).

(** [plt.close] raises, everything before it works. *)
Definition close_fails : call → world → option pyexn := λ c _,
  match c with
  | PltClose => Some (LibraryError "close failed")
  | _ => None
  end.

Definition eurusd_items : gmap string pyval :=
  list_to_map
    [ ("pair", PyStr "EUR/USD"); ("expiry_minutes", PyInt 5); ("confidence", PyFloat 0.85);
      ("current_price", PyFloat 1.0856);
      ("prices", PyList [PyFloat 1.0801; PyFloat 1.0823; PyFloat 1.0856]);
      ("analysis", PyDict (list_to_map
         [("sma_10", PyFloat 1.0841); ("sma_20", PyFloat 1.0823)])) ].

Definition bare_items : gmap string pyval :=
  list_to_map [("pair", PyStr "EUR/USD"); ("direction", PyStr "HIGH")].

Definition failed_run :=
  create_binary_chart plain_repr quiet incomplete (at_time 1730000000.2 ∅).

Definition next_second_run :=
  create_binary_chart plain_repr quiet gbpusd (at_time 1730000001.5 (files first_run.2)).

End ChartExamples.

Module SqlExamples.
Import Sql.

(** A library for the scenarios, which bind no text to a numeric column
    and no REAL to a text column, and fill no table up to the largest
    rowid: it is never asked. *)
Definition idle : library :=
  {| numeric_text := λ _, None; real_text := λ _, ""; random_rowid := λ _, None |}.

Definition fresh : database := setup_database (connect idle).

Definition bob : row :=
  [ ("user_id", Int 42); ("username", Text "bob"); ("first_name", Text "Bob");
    ("last_name", Null) ].

Definition eurusd_signal : row :=
  [ ("pair", Text "EUR/USD"); ("direction", Text "HIGH"); ("expiry_time", Timestamp 1301);
    ("confidence", Real (85 # 100)); ("price", Real (10856 # 10000)) ].

Definition delivered_once : list (Z * statement) :=
  [ (1000, Insert "users" bob);
    (1001, Insert "signals" eurusd_signal);
    (1002, Insert "user_signals" [("user_id", Int 42); ("signal_id", Int 1)]) ].

Definition delivered_twice : list (Z * statement) :=
  delivered_once ++ [ (1003, Insert "user_signals" [("user_id", Int 42); ("signal_id", Int 1)]) ].

Definition alice_sub : row :=
  [ ("user_id", Int 42); ("channel_username", Text "@signals") ].

End SqlExamples.

Module CoreExamples.
Import Sql Core.

Definition cfg : config :=
  {| min_confidence := 7 # 10; expiry_minutes := 5; cooldown_window := 300;
     channel_required := true; recheck_interval := 3600 |}.

(** One weighting: a half, plus twenty times the relative distance of the
    current price from the long average. *)
Definition spread_score (cur s10 s20 : Q) : Q :=
  ((1 # 2) + 20 * Qmax (cur - s20) (s20 - cur) / s20)%Q.

Definition rising : list Q :=
  [ 1.10; 1.11; 1.09; 1.10; 1.10; 1.09; 1.10; 1.11; 1.10; 1.10;
    1.10; 1.11; 1.10; 1.11; 1.11; 1.10; 1.11; 1.11; 1.12; 1.12 ]%Q.

Definition too_short : list Q := take 15 rising.

Definition alice : user :=
  {| user_id := 42; notification_enabled := true; is_premium := false;
     premium_until := None; preferred_pairs := ["EUR/USD"; "GBP/USD"] |}.

(** The same user after turning notifications off. *)
Definition alice_muted : user :=
  {| user_id := 42; notification_enabled := false; is_premium := false;
     premium_until := None; preferred_pairs := ["EUR/USD"; "GBP/USD"] |}.

Definition carol : user :=
  {| user_id := 43; notification_enabled := true; is_premium := false;
     premium_until := None; preferred_pairs := [] |}.

Definition member : subscription := {| subscribed := true; last_checked := 900 |}.

Definition first_signal : signal :=
  {| sig_id := 1; sig_pair := "EUR/USD"; sig_direction := HIGH; sig_expiry_time := 1300;
     sig_confidence := 39 # 50; sig_price := 1.12; sig_type := Regular;
     sig_strategy := "sma_uptrend" |}.

Definition second_signal : signal :=
  {| sig_id := 2; sig_pair := "GBP/USD"; sig_direction := LOW; sig_expiry_time := 1310;
     sig_confidence := 4 # 5; sig_price := 1.27; sig_type := Regular;
     sig_strategy := "sma_downtrend" |}.

(** The bot with alice registered. *)
Definition started : state :=
  {| conn := default SqlExamples.fresh
               (insert "users" [("user_id", Int 42); ("username", Text "alice")] 990
                  SqlExamples.fresh);
     user_cooldown := ∅ |}.

Definition generated : state :=
  step spread_score cfg 1000 (Generate "EUR/USD" Regular rising)
    (init (connect SqlExamples.idle)).

Definition later : list (Z * event) :=
  [ (1003, Dispatch carol member first_signal);
    (1005, Generate "GBP/USD" Regular rising);
    (1008, Dispatch carol member second_signal) ].

(** The bot once the first signal has been delivered to alice at 1000, and
    the bot after the process was restarted at 1005. *)
Definition delivered : state :=
  (dispatch cfg alice member first_signal 1000 started).1.

Definition restarted : state := step spread_score cfg 1005 Restart delivered.

End CoreExamples.

Module BotExamples.
Import Py Bot.

Definition all_defined : string → bool := λ _, true.
Definition accepts : pyval → option pyexn := λ _, None.
Definition opens : string → option pyexn := λ _, None.
Definition polls : list handler → option pyexn := λ _, None.
Definition plain_repr (v : pyval) : string := "<object>".

Definition valid : config :=
  {| BOT_TOKEN := PyStr "123456:token"; BOT_USERNAME := PyStr "signals_bot";
     CHANNEL_USERNAME := PyStr "signals"; ADMIN_USERNAME := PyStr "@admin";
     CHANNEL_REQUIRED := PyBool true; PREMIUM_ENABLED := PyBool false;
     DATABASE_NAME := "bot.db"; validate_config := None |}.


Definition boot : process := {| disk := ∅; log := []; stdout := [] |}.

End BotExamples.

(** * Proofs *)

(** ** The chart renderer *)

Section ChartProofs.
Import Py Plt Chart.

Variable repr_other : pyval → string.
Variable fails : call → world → option pyexn.

#[local] Abbreviation str := (Py.str repr_other).

Lemma bind_Ok_inv {A B} (m : M A) (k : A → M B) w b w' :
  (m ≫= k) w = (Ok b, w') →
  ∃ a w1, m w = (Ok a, w1) ∧ k a w1 = (Ok b, w').
Proof.
  unfold mbind, M_bind. destruct (m w) as [[a|e] w1]; [eauto | discriminate].
Qed.

Lemma plt_Ok_inv c w u w1 :
  plt fails c w = (Ok u, w1) → fails c w = None ∧ w1 = effect c w.
Proof.
  unfold plt. destruct (fails c w); intros H; inversion H; auto.
Qed.

Lemma time_time_inv w t w1 :
  time_time w = (Ok t, w1) → t = clock w ∧ w1 = w.
Proof. unfold time_time. intros H; inversion H; auto. Qed.

Lemma lift_Ok_inv {A} (r : result A) w a w1 :
  lift r w = (Ok a, w1) → r = Ok a ∧ w1 = w.
Proof. unfold lift. intros H; inversion H; auto. Qed.

Ltac step_render H :=
  let a := fresh "a" in
  let w := fresh "w" in
  let E := fresh "E" in
  apply bind_Ok_inv in H as (a & w & E & H);
  first [ apply plt_Ok_inv in E as [E ->]
        | apply time_time_inv in E as [-> ->]
        | apply lift_Ok_inv in E as [E ->] ].

(** A run of the [try] body that reaches [return filename]: the file name
    comes from the clock, the drawing is on disk under it and closed. *)
Lemma render_Ok_inv signal w filename w' :
  render repr_other fails signal w = (Ok filename, w') →
  ∃ seconds f,
    int_of_float (clock w) = Ok seconds ∧
    filename = "/tmp/binary_chart_" +:+ pretty seconds +:+ ".png" ∧
    depicts repr_other signal f ∧
    w' = {| open_figures := open_figures w; files := <[filename := f]> (files w);
            clock := clock w; log := log w |}.
Proof.
  unfold render. intros H.
  repeat step_render H.
  unfold mret, M_ret in H. injection H as <- <-.
  repeat match goal with
         | E1 : ?x = Ok ?a, E2 : ?x = Ok ?b |- _ =>
             rewrite E1 in E2; injection E2 as <-
         end.
  match goal with E : int_of_float _ = Ok _ |- _ => simpl in E end.
  eexists _, _. split; [eassumption|]. split; [reflexivity|].
  split; [| reflexivity].
  unfold depicts. do 15 eexists.
  repeat (split; [eassumption|]). reflexivity.
Qed.

(** The fallback is never the name of a chart that was saved. *)
Lemma chart_path_not_fallback (n : Z) :
  "/tmp/binary_chart_" +:+ pretty n +:+ ".png" ≠ chart_error_png.
Proof. discriminate. Qed.

Lemma create_binary_chart_unfold signal w :
  create_binary_chart repr_other fails signal w =
  match render repr_other fails signal w with
  | (Ok filename, w') => (Ok filename, w')
  | (Raise e, w') =>
      (Ok chart_error_png,
       {| open_figures := open_figures w'; files := files w'; clock := clock w';
          log := log w' ++ ["Chart creation error: " +:+ exn_message e] |})
  end.
Proof.
  unfold create_binary_chart, try_except.
  destruct (render repr_other fails signal w) as [[f|e] w']; reflexivity.
Qed.

Lemma create_binary_chart_success signal w filename w' :
  create_binary_chart repr_other fails signal w = (Ok filename, w') →
  filename ≠ chart_error_png →
  render repr_other fails signal w = (Ok filename, w').
Proof.
  rewrite create_binary_chart_unfold.
  destruct (render repr_other fails signal w) as [[f|e] w1]; intros H Hne.
  - exact H.
  - injection H as <- _. contradiction.
Qed.

Lemma keeps_fallback_bind {A B} (m : M A) (k : A → M B) :
  keeps_fallback m → (∀ a, keeps_fallback (k a)) → keeps_fallback (m ≫= k).
Proof.
  intros Hm Hk w r w'. unfold mbind, M_bind.
  destruct (m w) as [[a|e] w1] eqn:E; intros H.
  - rewrite (Hk a _ _ _ H). exact (Hm _ _ _ E).
  - injection H as <- <-. exact (Hm _ _ _ E).
Qed.

Lemma keeps_fallback_lift {A} (r : result A) : keeps_fallback (lift r).
Proof. intros w r' w' H. injection H as <- <-. reflexivity. Qed.

Lemma keeps_fallback_ret {A} (a : A) : keeps_fallback (mret a).
Proof. intros w r' w' H. injection H as <- <-. reflexivity. Qed.

Lemma keeps_fallback_time : keeps_fallback time_time.
Proof. intros w r' w' H. injection H as <- <-. reflexivity. Qed.

Lemma keeps_fallback_log msg : keeps_fallback (logger_error msg).
Proof. intros w r' w' H. injection H as <- <-. reflexivity. Qed.

Lemma keeps_fallback_plt c :
  (∀ fname dpi bbox, c = PltSavefig fname dpi bbox → fname ≠ chart_error_png) →
  keeps_fallback (plt fails c).
Proof.
  intros Hc w r w'. unfold plt. destruct (fails c w); intros H; injection H as <- <-;
    [reflexivity|].
  destruct c; try (unfold effect, on_current; destruct (gcf w); reflexivity);
    try reflexivity.
  unfold effect. destruct (gcf w). simpl.
  apply lookup_insert_ne. eapply Hc. reflexivity.
Qed.

Lemma create_binary_chart_keeps_fallback signal :
  keeps_fallback (create_binary_chart repr_other fails signal).
Proof.
  assert (Hr : keeps_fallback (render repr_other fails signal)).
  { unfold render.
    repeat (apply keeps_fallback_bind; [|intros ?]);
      try apply keeps_fallback_lift; try apply keeps_fallback_time;
      try apply keeps_fallback_ret;
      apply keeps_fallback_plt; intros fname dpi bbox Hc; try discriminate.
    injection Hc as <- _ _. apply chart_path_not_fallback. }
  intros w r w'. rewrite create_binary_chart_unfold.
  destruct (render repr_other fails signal w) as [[f|e] w1] eqn:E; intros H;
    injection H as <- <-; simpl; exact (Hr _ _ _ E).
Qed.

(** C1: for every input signal, in every state of the process and however
    matplotlib behaves, [create_binary_chart] returns normally with a path
    string, so no exception leaves it: the name of the chart it saved when
    the body of the [try] runs to its end, and the path of the fallback
    placeholder "/tmp/chart_error.png" whenever the body raises. The file
    under the fallback path is the one that was there before the call. *)
Theorem create_binary_chart_always_returns_a_path signal w :
  ∃ path w',
    create_binary_chart repr_other fails signal w = (Ok path, w') ∧
    match render repr_other fails signal w with
    | (Ok filename, _) =>
        path = filename ∧
        ∃ seconds : Z, filename = "/tmp/binary_chart_" +:+ pretty seconds +:+ ".png"
    | (Raise _, _) => path = chart_error_png
    end ∧
    files w' !! chart_error_png = files w !! chart_error_png.
Proof.
  destruct (create_binary_chart repr_other fails signal w) as [r w'] eqn:Hc.
  pose proof (create_binary_chart_keeps_fallback signal w r w' Hc) as Hkeep.
  rewrite create_binary_chart_unfold in Hc.
  destruct (render repr_other fails signal w) as [[filename|e] w1] eqn:E;
    injection Hc as <- <-.
  - exists filename, w1. split; [reflexivity|]. split; [|exact Hkeep].
    split; [reflexivity|].
    apply render_Ok_inv in E as (seconds & f & _ & -> & _).
    exists seconds. reflexivity.
  - eexists _, _. split; [reflexivity|]. split; [reflexivity | exact Hkeep].
Qed.

(** C8: when [create_binary_chart] returns on the successful path (its
    result is not the fallback), the image saved under the returned name
    holds, in this order, the price line over x = 0..len(prices)-1, the
    horizontal lines at sma_10 and sma_20, the horizontal line at the
    current price, and the title "BINARY: <pair> - <direction text> |
    <expiry>min | Conf: <confidence*100 to one decimal>%", where the
    direction text is "HIGH (CALL)" for the direction 'HIGH' and
    "LOW (PUT)" otherwise. *)
Theorem chart_shows_signal signal w filename w' :
  create_binary_chart repr_other fails signal w = (Ok filename, w') →
  filename ≠ chart_error_png →
  ∃ f prices n analysis sma10 l10 sma20 l20 price lc direction pair minutes
    confidence percent conf,
    files w' !! filename = Some f ∧
    getitem signal "prices" = Ok prices ∧ len prices = Ok n ∧
    getitem signal "analysis" = Ok analysis ∧
    getitem analysis "sma_10" = Ok sma10 ∧ format_spec_f 4 sma10 = Ok l10 ∧
    getitem analysis "sma_20" = Ok sma20 ∧ format_spec_f 4 sma20 = Ok l20 ∧
    getitem signal "current_price" = Ok price ∧ format_spec_f 4 price = Ok lc ∧
    getitem signal "direction" = Ok direction ∧
    getitem signal "pair" = Ok pair ∧
    getitem signal "expiry_minutes" = Ok minutes ∧
    getitem signal "confidence" = Ok confidence ∧
    mul_100 confidence = Ok percent ∧ format_spec_f 1 percent = Ok conf ∧
    artists f =
      [ Line2D (range n) prices "Price" "blue" 2;
        HLine sma10 "orange" "--" None ("SMA 10: " +:+ l10);
        HLine sma20 "red" "--" None ("SMA 20: " +:+ l20);
        HLine price "green" "-" (Some 2) ("Current: " +:+ lc) ] ∧
    title f =
      Some ("BINARY: " +:+ str pair +:+ " - " +:+
            (if eq_str direction "HIGH" then "HIGH (CALL)" else "LOW (PUT)") +:+
            " | " +:+ str minutes +:+ "min | Conf: " +:+ conf +:+ "%").
Proof.
  intros H Hne.
  apply create_binary_chart_success in H; [|exact Hne].
  apply render_Ok_inv in H as (seconds & f & _ & _ & Hf & ->).
  destruct Hf as (prices & n & analysis & sma10 & l10 & sma20 & l20 & price & lc &
                  direction & pair & minutes & confidence & percent & conf & Hf).
  exists f, prices, n, analysis, sma10, l10, sma20, l20, price, lc, direction, pair,
    minutes, confidence, percent, conf.
  split; [simpl; apply lookup_insert_eq|].
  destruct Hf as (?&?&?&?&?&?&?&?&?&?&?&?&?&?&?&->).
  repeat (split; [assumption|]). split; reflexivity.
Qed.

(** C10: on the successful path the returned name is
    "/tmp/binary_chart_<n>.png" with n = int(time.time()) and nothing else
    of the signal or the state in it. So two signals rendered in the same
    second get the same name, and when the second is rendered on the disk
    the first left, the file under that name then holds the second drawing
    in place of the first. *)
Theorem same_second_same_chart_path s1 s2 w1 w2 f1 f2 w1' w2' :
  create_binary_chart repr_other fails s1 w1 = (Ok f1, w1') →
  f1 ≠ chart_error_png →
  create_binary_chart repr_other fails s2 w2 = (Ok f2, w2') →
  f2 ≠ chart_error_png →
  ∃ n1 n2,
    int_of_float (clock w1) = Ok n1 ∧
    f1 = "/tmp/binary_chart_" +:+ pretty n1 +:+ ".png" ∧
    int_of_float (clock w2) = Ok n2 ∧
    f2 = "/tmp/binary_chart_" +:+ pretty n2 +:+ ".png" ∧
    (n1 = n2 → f1 = f2) ∧
    (n1 = n2 → files w2 = files w1' →
     ∃ fig1 fig2,
       depicts repr_other s1 fig1 ∧ depicts repr_other s2 fig2 ∧
       files w1' !! f1 = Some fig1 ∧
       files w2' !! f1 = Some fig2 ∧
       files w2' = <[f1 := fig2]> (files w1')).
Proof.
  intros H1 Hne1 H2 Hne2.
  apply create_binary_chart_success in H1; [|exact Hne1].
  apply create_binary_chart_success in H2; [|exact Hne2].
  apply render_Ok_inv in H1 as (n1 & fig1 & Hn1 & -> & Hd1 & ->).
  apply render_Ok_inv in H2 as (n2 & fig2 & Hn2 & -> & Hd2 & ->).
  exists n1, n2. repeat (split; [assumption || reflexivity|]).
  split; [intros ->; reflexivity|].
  intros -> Hfiles. exists fig1, fig2. simpl in *.
  repeat (split; [assumption|]).
  split; [apply lookup_insert_eq|].
  split; [apply lookup_insert_eq|].
  rewrite Hfiles. reflexivity.
Qed.

End ChartProofs.

(** *** The renderer on concrete signals *)

Section ChartScenarios.
Import Py Plt Chart ChartExamples.

Example first_run_path : first_run.1 = Ok "/tmp/binary_chart_1730000000.png".
Proof. vm_compute. reflexivity. Qed.

Example incomplete_signal_falls_back :
  (create_binary_chart plain_repr quiet incomplete (at_time 1730000000.2 ∅)).1
  = Ok "/tmp/chart_error.png".
Proof. vm_compute. reflexivity. Qed.

Example not_a_dict_falls_back :
  let r := create_binary_chart plain_repr quiet PyNone (at_time 1730000000.2 ∅) in
  r.1 = Ok "/tmp/chart_error.png" ∧
  log r.2 = ["Chart creation error: 'NoneType' object is not subscriptable"].
Proof. vm_compute. auto. Qed.

Example disk_full_falls_back :
  let r := create_binary_chart plain_repr disk_full eurusd (at_time 1730000000.2 ∅) in
  r.1 = Ok "/tmp/chart_error.png" ∧
  log r.2 = ["Chart creation error: [Errno 28] No space left on device"] ∧
  files r.2 = ∅.
Proof. vm_compute. auto. Qed.

End ChartScenarios.

Lemma chart_shows_signal_witness :
  ∃ f, Plt.files ChartExamples.first_run.2 !! "/tmp/binary_chart_1730000000.png" = Some f ∧
       Plt.title f = Some "BINARY: EUR/USD - HIGH (CALL) | 5min | Conf: 85.0%" ∧
       length (Plt.artists f) = 4%nat.
Proof.
  destruct (chart_shows_signal ChartExamples.plain_repr ChartExamples.quiet
              ChartExamples.eurusd (ChartExamples.at_time 1730000000.2 ∅)
              "/tmp/binary_chart_1730000000.png" ChartExamples.first_run.2)
    as (f & prices & n & analysis & sma10 & l10 & sma20 & l20 & price & lc &
        direction & pair & minutes & confidence & percent & conf &
        Hf & _ & _ & _ & _ & _ & _ & _ & _ & _ & Hd & Hp & Hm & Hc & Hpc & Hcf & Ha & Ht).
  - vm_compute. reflexivity.
  - discriminate.
  - exists f. split; [exact Hf|].
    vm_compute in Hd, Hp, Hm, Hc.
    injection Hd as <-. injection Hp as <-. injection Hm as <-. injection Hc as <-.
    vm_compute in Hpc. injection Hpc as <-.
    vm_compute in Hcf. injection Hcf as <-.
    split; [rewrite Ht; vm_compute; reflexivity | rewrite Ha; reflexivity].
Defined.

Lemma same_second_same_chart_path_witness :
  ChartExamples.first_run.1 = Py.Ok "/tmp/binary_chart_1730000000.png" ∧
  ChartExamples.second_run.1 = Py.Ok "/tmp/binary_chart_1730000000.png" ∧
  ∃ fig1 fig2,
    Plt.files ChartExamples.first_run.2 !! "/tmp/binary_chart_1730000000.png" = Some fig1 ∧
    Plt.files ChartExamples.second_run.2 !! "/tmp/binary_chart_1730000000.png" = Some fig2 ∧
    Plt.title fig1 = Some "BINARY: EUR/USD - HIGH (CALL) | 5min | Conf: 85.0%" ∧
    Plt.title fig2 = Some "BINARY: GBP/USD - LOW (PUT) | 3min | Conf: 72.0%".
Proof.
  split; [vm_compute; reflexivity|]. split; [vm_compute; reflexivity|].
  destruct (same_second_same_chart_path ChartExamples.plain_repr ChartExamples.quiet
              ChartExamples.eurusd ChartExamples.gbpusd
              (ChartExamples.at_time 1730000000.2 ∅)
              (ChartExamples.at_time 1730000000.9 (Plt.files ChartExamples.first_run.2))
              "/tmp/binary_chart_1730000000.png" "/tmp/binary_chart_1730000000.png"
              ChartExamples.first_run.2 ChartExamples.second_run.2)
    as (n1 & n2 & Hn1 & _ & Hn2 & _ & _ & Hover).
  - vm_compute. reflexivity.
  - discriminate.
  - vm_compute. reflexivity.
  - discriminate.
  - vm_compute in Hn1, Hn2. injection Hn1 as <-. injection Hn2 as <-.
    destruct (Hover eq_refl eq_refl) as (fig1 & fig2 & _ & _ & H1 & H2 & _).
    exists fig1, fig2. split; [exact H1|]. split; [exact H2|].
    vm_compute in H1, H2. injection H1 as <-. injection H2 as <-.
    split; reflexivity.
Defined.

(** ** The database *)

Section SqlProofs.
Import Sql.

(** *** Names and cells *)

Lemma same_name_refl a : same_name a a = true.
Proof. apply String.eqb_refl. Qed.

Lemma same_name_sym a b : same_name a b = same_name b a.
Proof. apply String.eqb_sym. Qed.

Lemma same_name_trans a b c :
  same_name a b = true → same_name b c = same_name a c.
Proof. unfold same_name. intros H. apply String.eqb_eq in H. rewrite H. reflexivity. Qed.

Lemma cell_same_name a b r : same_name a b = true → cell a r = cell b r.
Proof.
  intros H. induction r as [|[k x] r IH]; simpl; [reflexivity|].
  rewrite (same_name_sym k a), (same_name_sym k b), (same_name_trans _ _ k H), IH.
  reflexivity.
Qed.

Lemma cell_set_cell_ne c c' v r :
  same_name c c' = false → cell c (set_cell c' v r) = cell c r.
Proof.
  intros Hne. induction r as [|[k x] r IH]; simpl; [reflexivity|].
  destruct (same_name k c') eqn:E; simpl.
  - rewrite <- (same_name_trans _ _ c E), (same_name_sym c' c), Hne. reflexivity.
  - rewrite IH. reflexivity.
Qed.

Lemma cell_set_cell_eq c v r :
  is_Some (cell c r) → cell c (set_cell c v r) = Some v.
Proof.
  induction r as [|[k x] r IH]; simpl; intros [y Hy]; [discriminate|].
  destruct (same_name k c) eqn:E; simpl; rewrite E; [reflexivity|].
  apply IH. eauto.
Qed.

Lemma cell_set_cells_other lib t c assignments r :
  existsb (same_name c) assignments.*1 = false →
  cell c (set_cells lib t assignments r) = cell c r.
Proof.
  unfold set_cells. generalize r at 1 as r0. revert r.
  induction assignments as [|[k e] rest IH]; intros r r0 Hnot; simpl; [reflexivity|].
  simpl in Hnot. apply orb_false_iff in Hnot as [Hk Hrest].
  rewrite IH by exact Hrest. apply cell_set_cell_ne. exact Hk.
Qed.

(** The cell that an INSERT builds for a column. *)
Lemma cell_build_row lib now cols n given name c :
  List.find (λ c, same_name (col_name c) name) cols = Some c →
  cell name (build_row lib now cols n given) =
  Some (if col_primary_key c then Int n
        else convert lib (col_type c)
               (default (default_value now c) (cell (col_name c) given))).
Proof.
  induction cols as [|c0 cols IH]; simpl; [discriminate|].
  destruct (same_name (col_name c0) name); [intros [= <-]; reflexivity | exact IH].
Qed.

(** *** Statements *)

Lemma insert_Some_inv tname given now d d' :
  insert tname given now d = Some d' →
  ∃ t rs n,
    tables d !! lower tname = Some (t, rs) ∧
    new_rowid (engine d) (autoincrement t)
      (used_rowids t rs (default [] (hidden_rowids d !! lower tname)))
      (default 0 (sequence d !! lower tname)) (given_rowid t given) = Some n ∧
    (n ∉ used_rowids t rs (default [] (hidden_rowids d !! lower tname))) ∧
    tables d' = <[lower tname :=
                   (t, rs ++ [build_row (engine d) now (tbl_columns t) n given])]> (tables d) ∧
    sequence d' =
      (if autoincrement t
       then <[lower tname := Z.max (default 0 (sequence d !! lower tname)) n]> (sequence d)
       else sequence d) ∧
    foreign_keys d' = foreign_keys d ∧
    engine d' = engine d.
Proof.
  unfold insert. intros H.
  destruct (tables d !! lower tname) as [[t rs]|]; [|discriminate].
  destruct (negb _); [discriminate|].
  destruct (new_rowid _ _ _ _ _) as [n|] eqn:Hn; [|discriminate].
  destruct (bool_decide _) eqn:Hu; [discriminate|]. apply bool_decide_eq_false in Hu.
  simpl in H. destruct (unique_ok _ _ _); [|discriminate].
  destruct (references_ok _ _ _); [|discriminate].
  injection H as <-. exists t, rs, n. simpl. repeat split; auto.
Qed.

Lemma update_Some_inv tname assignments cond d d' :
  update tname assignments cond d = Some d' →
  ∃ t rs,
    tables d !! lower tname = Some (t, rs) ∧
    forallb (λ ce : string * expr,
               has_column t ce.1
               && negb (existsb (λ key, existsb (same_name ce.1) key) (keys t))
               && negb (existsb (λ fk, same_name (fk_column fk) ce.1) (tbl_foreign_keys t)))
            assignments = true ∧
    tables d' = <[lower tname :=
                   (t, map (λ r, if cond r then set_cells (engine d) t assignments r else r) rs)]>
                  (tables d) ∧
    sequence d' = sequence d ∧
    hidden_rowids d' = hidden_rowids d ∧
    foreign_keys d' = foreign_keys d ∧
    engine d' = engine d.
Proof.
  unfold update. intros H.
  destruct (tables d !! lower tname) as [[t rs]|]; [|discriminate].
  match type of H with
  | context [forallb ?f assignments && forallb ?g assignments && _] =>
      destruct (forallb f assignments) eqn:Hall; [|discriminate];
      destruct (forallb g assignments); [|discriminate]
  end.
  simpl in H. destruct (forallb _ rs); [|discriminate].
  injection H as <-. exists t, rs. repeat split; auto.
Qed.

(** A statement keeps every table's schema. *)
Lemma exec_keeps_schema now s d d' tname t rs :
  exec now s d = Some d' →
  tables d !! tname = Some (t, rs) →
  ∃ rs', tables d' !! tname = Some (t, rs').
Proof.
  intros H Ht. destruct s as [tn given | tn assignments cond]; simpl in H.
  - apply insert_Some_inv in H as (t0 & rs0 & n & H0 & _ & _ & -> & _).
    destruct (decide (lower tn = tname)) as [<-|Hne].
    + rewrite lookup_insert_eq. rewrite Ht in H0. injection H0 as <- <-. eauto.
    + rewrite lookup_insert_ne by done. eauto.
  - apply update_Some_inv in H as (t0 & rs0 & H0 & _ & -> & _).
    destruct (decide (lower tn = tname)) as [<-|Hne].
    + rewrite lookup_insert_eq. rewrite Ht in H0. injection H0 as <- <-. eauto.
    + rewrite lookup_insert_ne by done. eauto.
Qed.

Lemma exec_keeps_pragma now s d d' :
  exec now s d = Some d' → foreign_keys d' = foreign_keys d.
Proof.
  destruct s; simpl; intros H.
  - apply insert_Some_inv in H as (?&?&?&?&?&?&?&?&?&?). assumption.
  - apply update_Some_inv in H as (?&?&?&?&?&?&?&?&?). assumption.
Qed.

Lemma exec_keeps_engine now s d d' :
  exec now s d = Some d' → engine d' = engine d.
Proof.
  destruct s; simpl; intros H.
  - apply insert_Some_inv in H as (?&?&?&?&?&?&?&?&?&?). assumption.
  - apply update_Some_inv in H as (?&?&?&?&?&?&?&?&?). assumption.
Qed.

Lemma create_table_keeps t0 d tname t rs :
  tables d !! tname = Some (t, rs) →
  tables (create_table_if_not_exists t0 d) !! tname = Some (t, rs).
Proof.
  intros H. unfold create_table_if_not_exists.
  destruct (tables d !! lower (tbl_name t0)) eqn:E; [exact H|]. simpl.
  rewrite lookup_insert_ne; [exact H|]. intros Heq. rewrite Heq in E. congruence.
Qed.

Lemma create_table_pragma t0 d :
  foreign_keys (create_table_if_not_exists t0 d) = foreign_keys d.
Proof.
  unfold create_table_if_not_exists. destruct (tables d !! lower (tbl_name t0)); reflexivity.
Qed.

Lemma setup_database_keeps d tname t rs :
  tables d !! tname = Some (t, rs) →
  tables (setup_database d) !! tname = Some (t, rs).
Proof.
  intros H. unfold setup_database. do 4 apply create_table_keeps. exact H.
Qed.

Lemma setup_database_pragma d : foreign_keys (setup_database d) = false.
Proof. unfold setup_database. rewrite !create_table_pragma. reflexivity. Qed.

Lemma reachable_as_declared d : reachable d → as_declared d.
Proof.
  induction 1 as [lib | d d' now s _ [Hfk IH] Hexec | d _ [_ IH]].
  - split; [reflexivity|].
    intros t Ht. exists [].
    repeat (apply elem_of_cons in Ht as [->|Ht]; [vm_compute; reflexivity|]).
    by apply elem_of_nil in Ht.
  - split; [rewrite (exec_keeps_pragma _ _ _ _ Hexec); exact Hfk|].
    intros t Ht. destruct (IH t Ht) as [rs Hrs].
    eapply exec_keeps_schema; eassumption.
  - split; [apply setup_database_pragma|].
    intros t Ht. destruct (IH t Ht) as [rs Hrs]. exists rs.
    apply setup_database_keeps. exact Hrs.
Qed.

Lemma create_table_exists t0 d e :
  tables d !! lower (tbl_name t0) = Some e → create_table_if_not_exists t0 d = d.
Proof. intros H. unfold create_table_if_not_exists. rewrite H. reflexivity. Qed.

Lemma setup_database_as_declared d : as_declared d → setup_database d = d.
Proof.
  intros [Hfk Ht]. destruct d as [tb hid sq fk lib]. simpl in *. subst fk.
  destruct (Ht users) as [rs1 H1]; [repeat constructor|].
  destruct (Ht signals) as [rs2 H2]; [repeat constructor|].
  destruct (Ht user_signals) as [rs3 H3]; [repeat constructor|].
  destruct (Ht channel_subs) as [rs4 H4]; [repeat constructor|].
  set (d := {| tables := tb; hidden_rowids := hid; sequence := sq; foreign_keys := false;
               engine := lib |}).
  change (create_table_if_not_exists channel_subs
            (create_table_if_not_exists user_signals
               (create_table_if_not_exists signals
                  (create_table_if_not_exists users d))) = d).
  rewrite (create_table_exists users d _ H1), (create_table_exists signals d _ H2),
    (create_table_exists user_signals d _ H3).
  apply (create_table_exists channel_subs d _ H4).
Qed.

Lemma exec_all_reachable script d d' :
  reachable d → exec_all script d = Some d' → reachable d'.
Proof.
  revert d. induction script as [|[now s] rest IH]; simpl; intros d Hr H.
  - injection H as <-. exact Hr.
  - destruct (exec now s d) as [d1|] eqn:E; [|discriminate].
    apply (IH d1); [|exact H]. eapply reach_exec; eassumption.
Qed.

Lemma rows_of_lookup tname d t rs :
  tables d !! tname = Some (t, rs) → rows_of tname d = rs.
Proof. unfold rows_of. intros ->. reflexivity. Qed.

Lemma rows_of_insert tname given now d d' other :
  insert tname given now d = Some d' →
  lower tname ≠ other → rows_of other d' = rows_of other d.
Proof.
  intros H Hne. apply insert_Some_inv in H as (t & rs & n & _ & _ & _ & Hd' & _).
  unfold rows_of. rewrite Hd', lookup_insert_ne by done. reflexivity.
Qed.

Lemma rows_of_update tname assignments cond d d' other :
  update tname assignments cond d = Some d' →
  rows_of other d' =
  if decide (lower tname = other)
  then match tables d !! other with
       | Some (t, rs) =>
           map (λ r, if cond r then set_cells (engine d) t assignments r else r) rs
       | None => []
       end
  else rows_of other d.
Proof.
  intros H. apply update_Some_inv in H as (t & rs & Ht & _ & Hd' & _).
  unfold rows_of. rewrite Hd'. destruct (decide (lower tname = other)) as [<-|Hne].
  - rewrite lookup_insert_eq, Ht. reflexivity.
  - rewrite lookup_insert_ne by done. reflexivity.
Qed.

(** *** Rowids *)

Lemma largest_ge (l : list Z) m n : largest l = Some m → n ∈ l → n ≤ m.
Proof.
  destruct l as [|x l]; [discriminate|]. intros [= <-] Hn.
  apply elem_of_cons in Hn as [->|Hn].
  - clear. induction l as [|y l IH]; simpl; lia.
  - induction l as [|y l IH]; [by apply elem_of_nil in Hn|].
    apply elem_of_cons in Hn as [->|Hn]; simpl; [lia|]. specialize (IH Hn). lia.
Qed.

Lemma largest_elem (l : list Z) m : largest l = Some m → m ∈ l.
Proof.
  destruct l as [|x l]; [discriminate|]. intros [= <-].
  induction l as [|y l IH]; simpl; [left|].
  destruct (Z.max_spec y (foldr Z.max x l)) as [[_ ->]|[_ ->]].
  - apply elem_of_cons in IH as [IH|IH]; [rewrite IH; left | right; right; exact IH].
  - right. left.
Qed.

(** The rowid chosen for a table whose rowids are all below the largest
    one: it is not in use. *)
Lemma fresh_rowid_below lib used :
  Forall (λ n, n < max_rowid) used →
  ∃ n, fresh_rowid lib false used 0 = Some n ∧ (n ∉ used) ∧ n ≤ max_rowid.
Proof.
  intros Hall. unfold fresh_rowid. destruct (largest used) as [m|] eqn:Hm.
  - pose proof (largest_elem _ _ Hm) as Hin.
    rewrite Forall_forall in Hall. pose proof (Hall m Hin) as Hlt. simpl in Hlt.
    assert ((max_rowid <=? m) = false) as -> by (apply Z.leb_gt; exact Hlt).
    exists (m + 1). split; [reflexivity|]. split; [|lia].
    intros Hin'. pose proof (largest_ge _ _ _ Hm Hin'). lia.
  - destruct used; [|discriminate]. exists 1. split; [reflexivity|].
    split; [apply not_elem_of_nil | unfold max_rowid; lia].
Qed.

(** C2, as the schema has it: user_signals is declared with two foreign
    keys and neither a primary key nor a UNIQUE clause, and the connection
    never turns foreign keys on. So in every reachable state whose
    user_signals table has not reached the largest rowid, an INSERT of a
    (user_id, signal_id) delivery record with ids that fit 64 bits succeeds
    and appends one row with the defaults of the other columns, also when
    the table holds that pair already: the schema does not keep the pair
    unique. *)
Theorem user_signals_insert_always_recorded d uid sid now :
  reachable d →
  min_integer ≤ uid ≤ max_rowid →
  min_integer ≤ sid ≤ max_rowid →
  Forall (λ n, n < max_rowid) (rowids_of "user_signals" d) →
  keys user_signals = [] ∧
  ∃ d',
    insert "user_signals" [("user_id", Int uid); ("signal_id", Int sid)] now d = Some d' ∧
    rows_of "user_signals" d' = rows_of "user_signals" d ++ [delivery_row uid sid now] ∧
    reachable d'.
Proof.
  intros Hr Huid Hsid Hbelow. split; [reflexivity|].
  destruct (reachable_as_declared d Hr) as [Hfk Ht].
  destruct (Ht user_signals) as [rs Hrs]; [repeat constructor|]. simpl in Hrs.
  unfold rowids_of in Hbelow. rewrite Hrs in Hbelow.
  change (used_rowids user_signals rs ?h) with h in Hbelow.
  destruct (fresh_rowid_below (engine d) _ Hbelow) as (n & Hn & Hfree & _).
  assert (Hins : ∃ d', insert "user_signals" [("user_id", Int uid); ("signal_id", Int sid)] now d
                       = Some d' ∧
                       tables d' = <["user_signals" := (user_signals, rs ++ [delivery_row uid sid now])]>
                                     (tables d)).
  { unfold insert. change (lower "user_signals") with "user_signals". rewrite Hrs.
    assert (int64 uid = true ∧ int64 sid = true) as [Hu Hs].
    { unfold int64. split; apply andb_true_iff; split; apply Z.leb_le; lia. }
    change (forallb _ [("user_id", Int uid); ("signal_id", Int sid)])
      with (int64 uid && (int64 sid && true)).
    rewrite Hu, Hs.
    change (given_rowid user_signals _) with (@None value).
    change (used_rowids user_signals rs ?h) with h.
    change (autoincrement user_signals) with false.
    change (new_rowid ?lib false ?used ?seq None) with (fresh_rowid lib false used seq).
    assert (Hseq : ∀ lib used seq, fresh_rowid lib false used seq = fresh_rowid lib false used 0)
      by reflexivity.
    rewrite (Hseq _ _ (default 0 (sequence d !! "user_signals"))), Hn.
    rewrite bool_decide_eq_false_2 by exact Hfree.
    unfold references_ok. rewrite Hfk.
    eexists. split; [reflexivity|]. reflexivity. }
  destruct Hins as (d' & Hins & Hd'). exists d'. split; [exact Hins|]. split.
  - unfold rows_of at 1 2. rewrite Hd', lookup_insert_eq, Hrs. reflexivity.
  - eapply reach_exec with (s := Insert _ _); [exact Hr | exact Hins].
Qed.

(** C9: a row inserted into users by a statement that names none of
    risk_level, preferred_pairs, notification_enabled, is_premium,
    premium_until, total_signals, successful_signals and language_code
    holds 'medium', 'EUR/USD,GBP/USD', 1, 0, NULL, 0, 0 and 'en' there. *)
Theorem new_user_defaults d given now d' :
  reachable d →
  insert "users" given now d = Some d' →
  (∀ c, c ∈ ["risk_level"; "preferred_pairs"; "notification_enabled"; "is_premium";
             "premium_until"; "total_signals"; "successful_signals"; "language_code"] →
        cell c given = None) →
  ∃ r,
    rows_of "users" d' = rows_of "users" d ++ [r] ∧
    cell "risk_level" r = Some (Text "medium") ∧
    cell "preferred_pairs" r = Some (Text "EUR/USD,GBP/USD") ∧
    cell "notification_enabled" r = Some (Int 1) ∧
    cell "is_premium" r = Some (Int 0) ∧
    cell "premium_until" r = Some Null ∧
    cell "total_signals" r = Some (Int 0) ∧
    cell "successful_signals" r = Some (Int 0) ∧
    cell "language_code" r = Some (Text "en").
Proof.
  intros Hr Hins Hnone.
  destruct (reachable_as_declared d Hr) as [_ Ht].
  destruct (Ht users) as [rs Hrs]; [repeat constructor|]. simpl in Hrs.
  apply insert_Some_inv in Hins as (t & rs' & n & Hl & _ & _ & Hd' & _).
  change (lower "users") with "users" in *.
  rewrite Hrs in Hl. injection Hl as <- <-.
  eexists. split.
  { unfold rows_of. rewrite Hd', lookup_insert_eq, Hrs. reflexivity. }
  repeat split;
    (erewrite cell_build_row by reflexivity; simpl;
     rewrite Hnone by (repeat constructor); reflexivity).
Qed.

End SqlProofs.

(** *** The schema at work *)

Section SqlScenarios.
Import Sql SqlExamples.

Example signals_get_generated_ids :
  (λ d, cell "id" <$> rows_of "signals" d) <$> exec_all delivered_once fresh
  = Some [Some (Int 1)].
Proof. vm_compute. reflexivity. Qed.

Example user_id_is_a_primary_key :
  exec_all [(1000, Insert "users" bob); (1001, Insert "users" bob)] fresh = None.
Proof. vm_compute. reflexivity. Qed.

(** Names are matched without regard to case, and of two names of the
    rowid in one statement the last counts. *)
Example names_in_any_case :
  (λ d, cell "user_id" <$> rows_of "users" d) <$>
    exec_all [(1000, Insert "USERS" [("User_Id", Int 7); ("rowid", Int 5)])] fresh
  = Some [Some (Int 5)].
Proof. vm_compute. reflexivity. Qed.

(** An integer that does not fit 64 bits cannot be bound. *)
Example too_large_an_id :
  insert "user_signals" [("user_id", Int (2 ^ 63)); ("signal_id", Int 1)] 1000 fresh = None.
Proof. vm_compute. reflexivity. Qed.

(** Once signals holds the largest rowid, AUTOINCREMENT has none left. *)
Example signals_full :
  exec_all [(1000, Insert "signals" (("id", Int max_rowid) :: eurusd_signal));
            (1001, Insert "signals" eurusd_signal)] fresh = None.
Proof. vm_compute. reflexivity. Qed.

(** Without AUTOINCREMENT the rowid chosen is one more than the largest in
    the table, also below zero. *)
Example rowid_after_a_negative_one :
  (λ d, cell "user_id" <$> rows_of "users" d) <$>
    exec_all [(1000, Insert "users" [("user_id", Int (-5))]);
              (1001, Insert "users" [("username", Text "bob")])] fresh
  = Some [Some (Int (-5)); Some (Int (-4))].
Proof. vm_compute. reflexivity. Qed.

End SqlScenarios.

(** C2, as stated, fails: after the bot has recorded the delivery of signal
    1 to user 42 twice, which the schema lets it do, user_signals holds two
    rows with that pair. *)
Lemma duplicate_delivery_rows_reachable :
  ∃ d,
    Sql.exec_all SqlExamples.delivered_twice SqlExamples.fresh = Some d ∧
    Sql.reachable d ∧
    Sql.rows_of "user_signals" d = [Sql.delivery_row 42 1 1002; Sql.delivery_row 42 1 1003] ∧
    ¬ Sql.deliveries_unique d.
Proof.
  eexists. split; [vm_compute; reflexivity|].
  split.
  { apply (exec_all_reachable SqlExamples.delivered_twice SqlExamples.fresh);
      [apply Sql.reach_fresh | vm_compute; reflexivity]. }
  split; [vm_compute; reflexivity|].
  unfold Sql.deliveries_unique. intros H. vm_compute in H.
  apply NoDup_cons in H as [H _]. apply H. left.
Qed.

Lemma user_signals_insert_always_recorded_witness :
  ∃ d,
    Sql.exec_all SqlExamples.delivered_once SqlExamples.fresh = Some d ∧
    Sql.rows_of "user_signals" d = [Sql.delivery_row 42 1 1002] ∧
    Sql.rowids_of "user_signals" d = [1] ∧
    ∃ d',
      Sql.insert "user_signals" [("user_id", Sql.Int 42); ("signal_id", Sql.Int 1)] 1003 d
      = Some d' ∧
      Sql.rows_of "user_signals" d' = [Sql.delivery_row 42 1 1002; Sql.delivery_row 42 1 1003].
Proof.
  eexists. split; [vm_compute; reflexivity|].
  split; [vm_compute; reflexivity|].
  split; [vm_compute; reflexivity|].
  match goal with |- ∃ d', Sql.insert _ _ _ ?d = _ ∧ _ =>
    destruct (user_signals_insert_always_recorded d 42 1 1003) as (_ & d' & Hins & Hrows & _)
  end.
  - apply (exec_all_reachable SqlExamples.delivered_once SqlExamples.fresh);
      [apply Sql.reach_fresh | vm_compute; reflexivity].
  - vm_compute. split; discriminate.
  - vm_compute. split; discriminate.
  - match goal with |- Forall _ ?l =>
      assert (l = [1]) as -> by (vm_compute; reflexivity)
    end.
    repeat constructor.
  - exists d'. split; [exact Hins|]. rewrite Hrows. vm_compute. reflexivity.
Defined.

Lemma new_user_defaults_witness :
  ∃ d r,
    Sql.insert "users" SqlExamples.bob 1000 SqlExamples.fresh = Some d ∧
    Sql.rows_of "users" d = [r] ∧
    Sql.cell "risk_level" r = Some (Sql.Text "medium") ∧
    Sql.cell "preferred_pairs" r = Some (Sql.Text "EUR/USD,GBP/USD") ∧
    Sql.cell "notification_enabled" r = Some (Sql.Int 1) ∧
    Sql.cell "is_premium" r = Some (Sql.Int 0) ∧
    Sql.cell "premium_until" r = Some Sql.Null ∧
    Sql.cell "total_signals" r = Some (Sql.Int 0) ∧
    Sql.cell "successful_signals" r = Some (Sql.Int 0) ∧
    Sql.cell "language_code" r = Some (Sql.Text "en").
Proof.
  destruct (Sql.insert "users" SqlExamples.bob 1000 SqlExamples.fresh) as [d|] eqn:Hins;
    [|vm_compute in Hins; discriminate].
  destruct (new_user_defaults SqlExamples.fresh SqlExamples.bob 1000 d
              (Sql.reach_fresh SqlExamples.idle) Hins)
    as (r & Hrows & Hcells).
  - intros c Hc.
    repeat (apply elem_of_cons in Hc as [->|Hc]; [reflexivity|]).
    by apply elem_of_nil in Hc.
  - exists d, r. split; [reflexivity|]. split; [exact Hrows|]. exact Hcells.
Defined.

(** ** The pipeline *)

Section CoreProofs.
Import Sql Core.

Lemma signal_builder_inv cfg a pair ty now d d' r :
  as_declared d →
  signal_builder cfg a pair ty now d = (d', r) →
  (r = NoSignal ∧ d' = d ∧
   (trend a = NEUTRAL ∨ Qlt_bool (confidence a) (min_confidence cfg) = true)) ∨
  (r = PersistenceError ∧ d' = d) ∨
  (∃ id,
     r = Built {| sig_id := id; sig_pair := pair; sig_direction := trend a;
                  sig_expiry_time := now + 60 * expiry_minutes cfg;
                  sig_confidence := confidence a; sig_price := current_price a;
                  sig_type := ty; sig_strategy := strategy_tag (trend a) |} ∧
     trend a ≠ NEUTRAL ∧
     Qlt_bool (confidence a) (min_confidence cfg) = false ∧
     (∃ s, exec now s d = Some d') ∧
     rows_of "signals" d' =
       rows_of "signals" d ++
       [signal_row id pair (trend a) (now + 60 * expiry_minutes cfg)
          (confidence a) (current_price a) ty now]).
Proof.
  intros [_ Hdecl] H.
  destruct (Hdecl signals) as [rs Hrs]; [repeat constructor|]. simpl in Hrs.
  unfold signal_builder in H.
  destruct (trend a) eqn:Hdir; [ | | injection H as <- <-; left; auto ];
    (destruct (Qlt_bool (confidence a) (min_confidence cfg)) eqn:Hq;
       [injection H as <- <-; left; auto|];
     destruct (insert _ _ _ _) as [d1|] eqn:Hins;
       [|injection H as <- <-; right; left; auto];
     injection H as <- <-; right; right;
     pose proof Hins as Hinv;
     apply insert_Some_inv in Hinv as (t & rs' & n & Ht & _ & _ & Hd1 & _);
     change (lower "signals") with "signals" in Ht, Hd1;
     rewrite Hrs in Ht; injection Ht as <- <-;
     assert (Hrows : rows_of "signals" d1 =
                     rs ++ [signal_row n pair (trend a) (now + 60 * expiry_minutes cfg)
                              (confidence a) (current_price a) ty now])
       by (unfold rows_of; rewrite Hd1, lookup_insert_eq, Hdir; reflexivity);
     exists n;
     split; [unfold lastrowid; rewrite Hrows, List.last_last, Hdir; reflexivity|];
     split; [discriminate|]; split; [reflexivity|];
     split; [eexists (Insert _ _); exact Hins|];
     rewrite (rows_of_lookup _ _ _ _ Hrs), Hrows, Hdir; reflexivity).
Qed.

Lemma Qlt_bool_false a b : Qlt_bool a b = false → (b <= a)%Q.
Proof.
  unfold Qlt_bool. intros H. apply negb_false_iff in H. apply Qle_bool_iff. exact H.
Qed.

Lemma Qlt_bool_true a b : (a < b)%Q → Qlt_bool a b = true.
Proof.
  unfold Qlt_bool. intros H. apply negb_true_iff.
  destruct (Qle_bool b a) eqn:E; [|reflexivity].
  apply Qle_bool_iff in E. exfalso. exact (Qlt_not_le _ _ H E).
Qed.

Lemma clamp01_bounds q : (0 <= clamp01 q <= 1)%Q.
Proof.
  unfold clamp01. split.
  - apply Q.le_max_l.
  - apply Q.max_lub; [discriminate | apply Q.le_min_l].
Qed.

Lemma analyze_short score prices :
  (length prices < min_samples)%nat → analyze score prices = inl InsufficientDataError.
Proof.
  intros H. unfold analyze. apply Nat.ltb_lt in H. rewrite H. reflexivity.
Qed.

Lemma analyze_enough score prices :
  (min_samples ≤ length prices)%nat →
  ∃ a, analyze score prices = inr a ∧
       confidence a = clamp01 (score (current_price a) (sma_10 a) (sma_20 a)) ∧
       sma_10 a = sma 10 prices ∧ sma_20 a = sma 20 prices ∧
       current_price a = List.last prices 0%Q.
Proof.
  intros H. unfold analyze. apply Nat.ltb_ge in H. rewrite H.
  eexists. split; [reflexivity|]. simpl. auto.
Qed.

Lemma deliver_keeps_signals u s now st :
  rows_of "signals" (conn (deliver u s now st)) = rows_of "signals" (conn st).
Proof.
  unfold deliver. simpl.
  destruct (insert "user_signals" _ now (conn st)) as [d1|] eqn:E1; simpl.
  - destruct (update "users" _ _ d1) as [d2|] eqn:E2; simpl.
    + rewrite (rows_of_update _ _ _ _ _ "signals" E2). simpl.
      apply (rows_of_insert _ _ _ _ _ "signals" E1). discriminate.
    + apply (rows_of_insert _ _ _ _ _ "signals" E1). discriminate.
  - destruct (update "users" _ _ (conn st)) as [d2|] eqn:E2; simpl; [|reflexivity].
    rewrite (rows_of_update _ _ _ _ _ "signals" E2). reflexivity.
Qed.

Lemma deliver_reachable u s now st :
  reachable (conn st) → reachable (conn (deliver u s now st)).
Proof.
  intros Hr. unfold deliver. simpl.
  set (d1 := default (conn st) (insert "user_signals" _ now (conn st))).
  assert (Hr1 : reachable d1).
  { subst d1. destruct (insert "user_signals" _ now (conn st)) eqn:E; simpl; [|exact Hr].
    eapply reach_exec with (s := Insert _ _); [exact Hr | exact E]. }
  destruct (update "users" _ _ d1) eqn:E; simpl; [|exact Hr1].
  eapply reach_exec with (s := Update _ _ _) (now := now); [exact Hr1 | exact E].
Qed.

(** What one event does to the signals table: nothing, or one new row that
    passed the Signal Builder's gate, or outcomes written on expired rows. *)
Lemma step_signals score cfg now ev st :
  reachable (conn st) →
  reachable (conn (step score cfg now ev st)) ∧
  (rows_of "signals" (conn (step score cfg now ev st)) = rows_of "signals" (conn st) ∨
   (∃ a pair ty id,
      trend a ≠ NEUTRAL ∧ (min_confidence cfg <= confidence a)%Q ∧
      rows_of "signals" (conn (step score cfg now ev st)) =
        rows_of "signals" (conn st) ++
        [signal_row id pair (trend a) (now + 60 * expiry_minutes cfg)
           (confidence a) (current_price a) ty now]) ∨
   (∃ id won actual_result profit_loss,
      rows_of "signals" (conn (step score cfg now ev st)) =
        map (λ r, if has_id id r && expired now r && is_null (cell "success" r)
                  then set_cells (engine (conn st)) signals
                         (outcome_assignments won actual_result profit_loss) r
                  else r)
            (rows_of "signals" (conn st)))).
Proof.
  intros Hr. destruct ev as [symbol ty prices | id won ar pl | u sub s | ]; simpl.
  - unfold generate_signal. destruct (analyze score prices) as [e|a]; simpl; [auto|].
    destruct (signal_builder cfg a symbol ty now (conn st)) as [d' r] eqn:Hb. simpl.
    apply signal_builder_inv in Hb; [|apply reachable_as_declared; exact Hr].
    destruct Hb as [(_ & -> & _) | [(_ & ->) | (n & _ & Hdir & Hq & [s Hs] & Hrows)]]; [auto | auto |].
    split; [eapply reach_exec; eassumption|].
    right. left. exists a, symbol, ty, n.
    split; [exact Hdir|]. split; [apply Qlt_bool_false; exact Hq | exact Hrows].
  - unfold resolve.
    destruct (update "signals" _ _ (conn st)) as [d'|] eqn:E; simpl; [|auto].
    split; [eapply reach_exec with (s := Update _ _ _) (now := now); eassumption|].
    right. right. exists id, won, ar, pl.
    rewrite (rows_of_update _ _ _ _ _ "signals" E).
    destruct (reachable_as_declared _ Hr) as [_ Hdecl].
    destruct (Hdecl signals) as [rs Hrs]; [repeat constructor|]. simpl in Hrs.
    rewrite decide_True by reflexivity. rewrite Hrs, (rows_of_lookup _ _ _ _ Hrs).
    reflexivity.
  - unfold dispatch. destruct (eligibility cfg (user_cooldown st) now u sub s); simpl; [|auto].
    split; [apply deliver_reachable; exact Hr | left; apply deliver_keeps_signals].
  - rewrite (setup_database_as_declared _ (reachable_as_declared _ Hr)). auto.
Qed.

Lemma run_reachable score cfg t st : run score cfg t st → reachable (conn st).
Proof.
  induction 1 as [lib t | t st t' ev _ IH _ | t st t' _ IH _].
  - apply reach_fresh.
  - apply step_signals. exact IH.
  - exact IH.
Qed.

Lemma outcome_columns_only lib won ar pl c r :
  c ∈ ["confidence"; "direction"; "expiry_time"] →
  cell c (set_cells lib signals (outcome_assignments won ar pl) r) = cell c r.
Proof.
  intros Hc. apply cell_set_cells_other.
  repeat (apply elem_of_cons in Hc as [->|Hc]; [reflexivity|]).
  by apply elem_of_nil in Hc.
Qed.

(** C4: a price series of fewer than 20 samples makes the Analysis Engine
    fail with InsufficientDataError: it returns no features, and the pass
    of the pipeline that asked for them hands the database back as it was,
    so no signals row is written. *)
Theorem short_series_insufficient_data score cfg pair ty prices now d :
  (length prices < 20)%nat →
  analyze score prices = inl InsufficientDataError ∧
  generate_signal score cfg pair ty prices now d = (d, Failed InsufficientDataError).
Proof.
  intros H. pose proof (analyze_short score prices H) as Ha.
  split; [exact Ha|]. unfold generate_signal. rewrite Ha. reflexivity.
Qed.

(** C5: on a price series of at least 20 samples the Analysis Engine
    returns features, the same ones in every run whatever the database,
    the clock, the configuration or the pair it is run for, and their
    confidence lies in [0,1]. *)
Theorem analysis_deterministic_and_bounded score prices :
  (20 ≤ length prices)%nat →
  ∃ a,
    analyze score prices = inr a ∧
    (0 <= confidence a <= 1)%Q ∧
    ∀ cfg pair ty now d,
      ∃ d' r, generate_signal score cfg pair ty prices now d = (d', Analysed a r).
Proof.
  intros H. destruct (analyze_enough score prices H) as (a & Ha & Hc & _).
  exists a. split; [exact Ha|]. split; [rewrite Hc; apply clamp01_bounds|].
  intros cfg symbol ty now d. unfold generate_signal. rewrite Ha.
  destruct (signal_builder cfg a symbol ty now d) as [d' r]. eauto.
Qed.

(** C6: in every state of a run, the Signal Builder answers "no signal" and
    leaves the database alone when the direction is NEUTRAL or the
    confidence is below min_confidence; when it builds a signal the
    direction is not NEUTRAL, the confidence is at least min_confidence and
    exactly one row is added to signals; and every row the signals table
    holds has a confidence of at least min_confidence and a direction that
    is not NEUTRAL. *)
Theorem persisted_signals_meet_min_confidence score cfg t st :
  run score cfg t st →
  (∀ a pair ty now,
     trend a = NEUTRAL ∨ (confidence a < min_confidence cfg)%Q →
     signal_builder cfg a pair ty now (conn st) = (conn st, NoSignal)) ∧
  (∀ a pair ty now d' s,
     signal_builder cfg a pair ty now (conn st) = (d', Built s) →
     trend a ≠ NEUTRAL ∧ (min_confidence cfg <= confidence a)%Q ∧
     ∃ r, rows_of "signals" d' = rows_of "signals" (conn st) ++ [r] ∧
          cell "confidence" r = Some (Real (confidence a))) ∧
  (∀ r, r ∈ rows_of "signals" (conn st) →
     ∃ q dir,
       cell "confidence" r = Some (Real q) ∧ (min_confidence cfg <= q)%Q ∧
       cell "direction" r = Some (Text (direction_text dir)) ∧ dir ≠ NEUTRAL).
Proof.
  intros Hrun. split; [|split].
  - intros a symbol ty now [Hn | Hlt]; unfold signal_builder.
    + rewrite Hn. reflexivity.
    + rewrite (Qlt_bool_true _ _ Hlt). destruct (trend a); reflexivity.
  - intros a symbol ty now d' s Hb.
    apply signal_builder_inv in Hb;
      [|apply reachable_as_declared, (run_reachable _ _ _ _ Hrun)].
    destruct Hb as [(Hr & _) | [(Hr & _) | (n & _ & Hdir & Hq & _ & Hrows)]];
      [discriminate | discriminate |].
    split; [exact Hdir|]. split; [apply Qlt_bool_false; exact Hq|].
    eexists. split; [exact Hrows | reflexivity].
  - induction Hrun as [lib t | t st t' ev Hrun IH _ | t st t' _ IH _]; [| |exact IH].
    + intros r Hr. vm_compute in Hr. by apply elem_of_nil in Hr.
    + intros r Hr.
      destruct (step_signals score cfg t' ev st (run_reachable _ _ _ _ Hrun))
        as [_ [Hsame | [(a & symbol & ty & n & Hdir & Hq & Hrows) | (id & won & ar & pl & Hrows)]]];
        rewrite ?Hsame, ?Hrows in Hr.
      * apply IH. exact Hr.
      * apply elem_of_app in Hr as [Hr | Hr]; [apply IH; exact Hr|].
        apply list_elem_of_singleton in Hr as ->.
        exists (confidence a), (trend a). repeat split; assumption.
      * apply list_elem_of_In, in_map_iff in Hr as (r0 & <- & Hr0).
        apply list_elem_of_In in Hr0.
        destruct (IH r0 Hr0) as (q & dir & Hc & Hq & Hd & Hdir).
        exists q, dir.
        destruct (has_id id r0 && expired t' r0 && is_null (cell "success" r0)); [|auto].
        rewrite !outcome_columns_only by (repeat constructor).
        auto.
Qed.

(** C7: in every state of a run, at time t, a signals row whose expiry_time
    is after t has NULL in success, actual_result and profit_loss; and the
    row that the Signal Builder inserts has NULL in the three, from the
    defaults of the schema. *)
Theorem outcome_null_until_expiry score cfg t st :
  run score cfg t st →
  (∀ r e,
     r ∈ rows_of "signals" (conn st) →
     cell "expiry_time" r = Some (Timestamp e) → t < e →
     cell "success" r = Some Null ∧ cell "actual_result" r = Some Null ∧
     cell "profit_loss" r = Some Null) ∧
  (∀ a pair ty now d' s,
     signal_builder cfg a pair ty now (conn st) = (d', Built s) →
     ∃ r, rows_of "signals" d' = rows_of "signals" (conn st) ++ [r] ∧
          cell "id" r = Some (Int (sig_id s)) ∧
          cell "expiry_time" r = Some (Timestamp (sig_expiry_time s)) ∧
          cell "success" r = Some Null ∧ cell "actual_result" r = Some Null ∧
          cell "profit_loss" r = Some Null).
Proof.
  intros Hrun. split.
  - induction Hrun as [lib t | t st t' ev Hrun IH Hle | t st t' _ IH Hle].
    + intros r e Hr. vm_compute in Hr. by apply elem_of_nil in Hr.
    + intros r e Hr He Hlt.
      destruct (step_signals score cfg t' ev st (run_reachable _ _ _ _ Hrun))
        as [_ [Hsame | [(a & symbol & ty & n & _ & _ & Hrows) | (id & won & ar & pl & Hrows)]]];
        rewrite ?Hsame, ?Hrows in Hr.
      * apply (IH r e Hr He). lia.
      * apply elem_of_app in Hr as [Hr | Hr]; [apply (IH r e Hr He); lia|].
        apply list_elem_of_singleton in Hr as ->. repeat split; reflexivity.
      * apply list_elem_of_In, in_map_iff in Hr as (r0 & <- & Hr0).
        apply list_elem_of_In in Hr0.
        destruct (has_id id r0 && expired t' r0 && is_null (cell "success" r0)) eqn:Hcond.
        -- rewrite outcome_columns_only in He by (repeat constructor).
           apply andb_true_iff in Hcond as [Hcond _].
           apply andb_true_iff in Hcond as [_ Hexp].
           unfold expired in Hexp. rewrite He in Hexp. apply Z.ltb_lt in Hexp. lia.
        -- apply (IH r0 e Hr0 He). lia.
    + intros r e Hr He Hlt. apply (IH r e Hr He). lia.
  - intros a symbol ty now d' s Hb.
    apply signal_builder_inv in Hb;
      [|apply reachable_as_declared, (run_reachable _ _ _ _ Hrun)].
    destruct Hb as [(Hr & _) | [(Hr & _) | (n & Hs & _ & _ & _ & Hrows)]];
      [discriminate | discriminate |].
    injection Hs as ->.
    eexists. split; [exact Hrows|]. repeat split; reflexivity.
Qed.

Lemma step_cooldown score cfg now ev st uid last T :
  is_restart ev = false →
  user_cooldown st !! uid = Some last → T ≤ last → T ≤ now →
  ∃ last', user_cooldown (step score cfg now ev st) !! uid = Some last' ∧ T ≤ last'.
Proof.
  intros Hev Hl Hle Hnow.
  destruct ev as [symbol ty prices | id won ar pl | u sub s | ]; simpl;
    [eauto | eauto | | discriminate].
  unfold dispatch. destruct (eligibility cfg (user_cooldown st) now u sub s); simpl; [|eauto].
  destruct (decide (user_id u = uid)) as [->|Hne].
  - rewrite lookup_insert_eq. eauto.
  - rewrite lookup_insert_ne by exact Hne. eauto.
Qed.

Lemma play_cooldown score cfg evs st uid last T :
  user_cooldown st !! uid = Some last → T ≤ last →
  Forall (λ te, T ≤ te.1 ∧ is_restart te.2 = false) evs →
  ∃ last', user_cooldown (play score cfg evs st) !! uid = Some last' ∧ T ≤ last'.
Proof.
  revert st last. induction evs as [|[now ev] rest IH]; intros st last Hl Hle Hall; simpl.
  - eauto.
  - apply Forall_cons in Hall as [[Hnow Hev] Hrest]. simpl in Hnow, Hev.
    destruct (step_cooldown score cfg now ev st uid last T Hev Hl Hle Hnow)
      as (l1 & Hl1 & Hle1).
    apply (IH _ l1); assumption.
Qed.

(** C3, for one life of the process: after a delivery to a user at time T,
    and whatever is generated, resolved or dispatched from then on without
    the bot being constructed anew, a check of a user with that id at a time
    before T + cooldown_window is never ELIGIBLE: it is rejected, for the
    cooldown unless one of the gates before the cooldown (notifications,
    subscription, premium) rejects first. The timestamp is read from the
    [user_cooldown] map, by user id. *)
Theorem cooldown_rejects_until_window_elapsed score cfg st u sub s T evs u' sub' s' t :
  (dispatch cfg u sub s T st).2 = ELIGIBLE →
  Forall (λ te, T ≤ te.1 ∧ is_restart te.2 = false) evs →
  user_id u' = user_id u →
  t < T + cooldown_window cfg →
  ∃ last,
    user_cooldown (play score cfg evs (dispatch cfg u sub s T st).1) !! user_id u = Some last ∧
    T ≤ last ∧
    eligibility cfg (user_cooldown (play score cfg evs (dispatch cfg u sub s T st).1))
      t u' sub' s'
    = Rejected (default Cooldown (earlier_gates cfg t u' sub' s')) ∧
    eligibility cfg (user_cooldown (play score cfg evs (dispatch cfg u sub s T st).1))
      t u' sub' s'
    ≠ ELIGIBLE.
Proof.
  intros Hd Hevs Hid Ht.
  assert (H0 : user_cooldown (dispatch cfg u sub s T st).1 !! user_id u = Some T).
  { unfold dispatch in *. destruct (eligibility cfg (user_cooldown st) T u sub s);
      [|discriminate]. simpl. apply lookup_insert_eq. }
  destruct (play_cooldown score cfg evs _ (user_id u) T T H0 (Z.le_refl T) Hevs)
    as (last & Hlast & Hle).
  exists last. split; [exact Hlast|]. split; [exact Hle|].
  assert (He : eligibility cfg (user_cooldown (play score cfg evs (dispatch cfg u sub s T st).1))
                 t u' sub' s'
               = Rejected (default Cooldown (earlier_gates cfg t u' sub' s'))).
  { unfold eligibility. destruct (earlier_gates cfg t u' sub' s'); [reflexivity|].
    unfold cooling_down. rewrite Hid, Hlast.
    assert (Hc : (t <? last + cooldown_window cfg) = true) by (apply Z.ltb_lt; lia).
    rewrite Hc. reflexivity. }
  split; [exact He|]. rewrite He. discriminate.
Qed.

End CoreProofs.

(** *** The pipeline on the scenarios of the specification *)

Section CoreScenarios.
Import Sql Core CoreExamples.

Example rising_is_high_and_confident :
  ∃ a, analyze spread_score rising = inr a ∧ trend a = HIGH ∧
       (7 # 10 <= confidence a)%Q ∧ (confidence a == 3449 # 4418)%Q.
Proof.
  eexists. split; [vm_compute; reflexivity|]. split; [reflexivity|].
  split; vm_compute; discriminate || reflexivity.
Qed.

Example rising_is_persisted :
  rows_of "signals" (conn generated) =
  [ [ ("id", Int 1); ("pair", Text "EUR/USD"); ("direction", Text "HIGH");
      ("expiry_time", Timestamp 1300);
      ("confidence", Real (clamp01 (spread_score 1.12 (sma 10 rising) (sma 20 rising))));
      ("price", Real 1.12); ("stop_loss", Null); ("take_profit", Null);
      ("signal_type", Text "regular"); ("strategy", Text "sma_uptrend");
      ("created_at", Timestamp 1000); ("success", Null); ("actual_result", Null);
      ("profit_loss", Null) ] ].
Proof. vm_compute. reflexivity. Qed.

Example alice_gets_the_signal :
  let r := dispatch cfg alice member first_signal 1000 started in
  r.2 = ELIGIBLE ∧
  rows_of "user_signals" (conn r.1) =
    [ [ ("user_id", Int 42); ("signal_id", Int 1); ("received_at", Timestamp 1000);
        ("action_taken", Text "viewed"); ("result_noted", Int 0) ] ] ∧
  (cell "total_signals" <$> rows_of "users" (conn r.1)) = [Some (Int 1)].
Proof. vm_compute. auto. Qed.

Example alice_ten_seconds_later :
  let r := dispatch cfg alice member first_signal 1000 started in
  dispatch cfg alice member second_signal 1010 r.1 = (r.1, Rejected Cooldown).
Proof. vm_compute. reflexivity. Qed.

(** The gates are asked in order: alice with notifications off is rejected
    for that, inside the window too. *)
Example muted_alice_ten_seconds_later :
  eligibility cfg (user_cooldown delivered) 1010 alice_muted member second_signal
  = Rejected NotificationsDisabled.
Proof. vm_compute. reflexivity. Qed.

Example resolved_after_expiry :
  let before := resolve 1 true "HIGH" (8 # 10) 1200 (conn generated) in
  let after := resolve 1 true "HIGH" (8 # 10) 1301 (conn generated) in
  (cell "success" <$> rows_of "signals" before) = [Some Null] ∧
  (cell "success" <$> rows_of "signals" after) = [Some (Int 1)].
Proof. vm_compute. auto. Qed.

End CoreScenarios.

(** C3, as stated, fails: alice receives a signal at time 1000 and the
    delivery is recorded in user_signals; the process is restarted at 1005,
    which constructs the bot anew on the same database, with
    [user_cooldown = {}]; checked at 1010, inside the window of 300
    seconds, alice is ELIGIBLE again. *)
Lemma restart_forgets_the_cooldown :
  (Core.dispatch CoreExamples.cfg CoreExamples.alice CoreExamples.member
     CoreExamples.first_signal 1000 CoreExamples.started).2 = Core.ELIGIBLE ∧
  Sql.rows_of "user_signals" (Core.conn CoreExamples.delivered)
  = [Sql.delivery_row 42 1 1000] ∧
  Core.user_cooldown CoreExamples.delivered !! 42 = Some 1000 ∧
  1010 < 1000 + Core.cooldown_window CoreExamples.cfg ∧
  CoreExamples.restarted = Core.init (Core.conn CoreExamples.delivered) ∧
  Core.conn CoreExamples.restarted = Core.conn CoreExamples.delivered ∧
  Core.user_cooldown CoreExamples.restarted = ∅ ∧
  Core.eligibility CoreExamples.cfg (Core.user_cooldown CoreExamples.restarted)
    1010 CoreExamples.alice CoreExamples.member CoreExamples.second_signal
  = Core.ELIGIBLE.
Proof.
  split; [vm_compute; reflexivity|]. split; [vm_compute; reflexivity|].
  split; [vm_compute; reflexivity|]. split; [vm_compute; reflexivity|].
  split; [reflexivity|]. split; [vm_compute; reflexivity|].
  split; [reflexivity|]. vm_compute. reflexivity.
Qed.

Lemma cooldown_rejects_until_window_elapsed_witness :
  ∃ last,
    Core.user_cooldown
      (Core.play CoreExamples.spread_score CoreExamples.cfg CoreExamples.later
         (Core.dispatch CoreExamples.cfg CoreExamples.alice CoreExamples.member
            CoreExamples.first_signal 1000 CoreExamples.started).1) !! 42 = Some last ∧
    1000 ≤ last ∧
    Core.eligibility CoreExamples.cfg
      (Core.user_cooldown
         (Core.play CoreExamples.spread_score CoreExamples.cfg CoreExamples.later
            (Core.dispatch CoreExamples.cfg CoreExamples.alice CoreExamples.member
               CoreExamples.first_signal 1000 CoreExamples.started).1))
      1010 CoreExamples.alice CoreExamples.member CoreExamples.second_signal
    = Core.Rejected Core.Cooldown ∧
    Core.eligibility CoreExamples.cfg
      (Core.user_cooldown
         (Core.play CoreExamples.spread_score CoreExamples.cfg CoreExamples.later
            (Core.dispatch CoreExamples.cfg CoreExamples.alice CoreExamples.member
               CoreExamples.first_signal 1000 CoreExamples.started).1))
      1010 CoreExamples.alice CoreExamples.member CoreExamples.second_signal
    ≠ Core.ELIGIBLE.
Proof.
  apply (cooldown_rejects_until_window_elapsed CoreExamples.spread_score CoreExamples.cfg
           CoreExamples.started CoreExamples.alice CoreExamples.member
           CoreExamples.first_signal 1000 CoreExamples.later
           CoreExamples.alice CoreExamples.member CoreExamples.second_signal 1010).
  - vm_compute. reflexivity.
  - unfold CoreExamples.later. repeat constructor; simpl; lia.
  - reflexivity.
  - vm_compute. reflexivity.
Defined.

Lemma short_series_insufficient_data_witness :
  Core.analyze CoreExamples.spread_score CoreExamples.too_short
  = inl Core.InsufficientDataError ∧
  Core.generate_signal CoreExamples.spread_score CoreExamples.cfg "EUR/USD" Core.Regular
    CoreExamples.too_short 1000 SqlExamples.fresh
  = (SqlExamples.fresh, Core.Failed Core.InsufficientDataError).
Proof.
  apply (short_series_insufficient_data CoreExamples.spread_score CoreExamples.cfg
           "EUR/USD" Core.Regular CoreExamples.too_short 1000 SqlExamples.fresh).
  vm_compute. lia.
Defined.

Lemma analysis_deterministic_and_bounded_witness :
  ∃ a,
    Core.analyze CoreExamples.spread_score CoreExamples.rising = inr a ∧
    (0 <= Core.confidence a <= 1)%Q ∧
    ∀ cfg pair ty now d,
      ∃ d' r, Core.generate_signal CoreExamples.spread_score cfg pair ty
                CoreExamples.rising now d = (d', Core.Analysed a r).
Proof.
  apply (analysis_deterministic_and_bounded CoreExamples.spread_score CoreExamples.rising).
  vm_compute. lia.
Defined.

Lemma persisted_signals_meet_min_confidence_witness :
  length (Sql.rows_of "signals" (Core.conn CoreExamples.generated)) = 1%nat ∧
  ∀ r, r ∈ Sql.rows_of "signals" (Core.conn CoreExamples.generated) →
       ∃ q dir,
         Sql.cell "confidence" r = Some (Sql.Real q) ∧ (7 # 10 <= q)%Q ∧
         Sql.cell "direction" r = Some (Sql.Text (Core.direction_text dir)) ∧
         dir ≠ Core.NEUTRAL.
Proof.
  split; [vm_compute; reflexivity|].
  apply (persisted_signals_meet_min_confidence CoreExamples.spread_score CoreExamples.cfg
           1000 CoreExamples.generated).
  apply (Core.run_step _ _ 0); [apply Core.run_start | lia].
Defined.

Lemma outcome_null_until_expiry_witness :
  length (Sql.rows_of "signals" (Core.conn CoreExamples.generated)) = 1%nat ∧
  ∀ r e,
    r ∈ Sql.rows_of "signals" (Core.conn CoreExamples.generated) →
    Sql.cell "expiry_time" r = Some (Sql.Timestamp e) → 1200 < e →
    Sql.cell "success" r = Some Sql.Null ∧ Sql.cell "actual_result" r = Some Sql.Null ∧
    Sql.cell "profit_loss" r = Some Sql.Null.
Proof.
  split; [vm_compute; reflexivity|].
  apply (outcome_null_until_expiry CoreExamples.spread_score CoreExamples.cfg
           1200 CoreExamples.generated).
  apply (Core.run_wait _ _ 1000); [|lia].
  apply (Core.run_step _ _ 0); [apply Core.run_start | lia].
Defined.

(** * Further properties *)

(** ** The renderer when it fails *)

Section ChartFailure.
Import Py Plt Chart.

Variable repr_other : pyval → string.
Variable fails : call → world → option pyexn.

Lemma bind_Raise_inv {A B} (m : M A) (k : A → M B) w e w' :
  (m ≫= k) w = (Raise e, w') →
  m w = (Raise e, w') ∨ ∃ a w1, m w = (Ok a, w1) ∧ k a w1 = (Raise e, w').
Proof.
  unfold mbind, M_bind. destruct (m w) as [[a|e1] w1]; intros H;
    [right; eauto | left; injection H as <- <-; reflexivity].
Qed.

Lemma plt_Raise_inv c w e w1 :
  plt fails c w = (@Raise unit e, w1) → fails c w = Some e ∧ w1 = w.
Proof.
  unfold plt. destruct (fails c w); intros H; inversion H; auto.
Qed.

Lemma lift_Raise_inv {A} (r : result A) w e w1 :
  lift r w = (Raise e, w1) → r = Raise e ∧ w1 = w.
Proof. unfold lift. intros H; inversion H; auto. Qed.

Ltac fail_step H :=
  let a := fresh "a" in
  let w := fresh "w" in
  let E := fresh "E" in
  apply bind_Raise_inv in H as [H | (a & w & E & H)];
  [ first [ apply plt_Raise_inv in H as [H ->]
          | discriminate H
          | apply lift_Raise_inv in H as [H ->] ]
  | first [ apply (plt_Ok_inv fails) in E as [E ->]
          | apply time_time_inv in E as [-> ->]
          | apply lift_Ok_inv in E as [E ->] ] ].

(** A run of the [try] body that raises: either [plt.figure] itself raised
    and nothing happened, or the figure it opened is still open; the disk
    is as it was unless the chart was saved and [plt.close] raised. *)
Lemma render_Raise_inv signal w e w' :
  render repr_other fails signal w = (Raise e, w') →
  log w' = log w ∧ clock w' = clock w ∧
  ((fails (PltFigure (10, 6)) w = Some e ∧ open_figures w' = open_figures w ∧
    files w' = files w) ∨
   (fails (PltFigure (10, 6)) w = None ∧
    ∃ f, open_figures w' = f :: open_figures w ∧
      (files w' = files w ∨
       ∃ seconds,
         int_of_float (clock w) = Ok seconds ∧ depicts repr_other signal f ∧
         files w' = <["/tmp/binary_chart_" +:+ pretty seconds +:+ ".png" := f]> (files w)))).
Proof.
  unfold render. intros H.
  fail_step H; [split; [reflexivity|]; split; [reflexivity|]; left; auto|].
  repeat (fail_step H;
    [try solve [simpl; split; [reflexivity|]; split; [reflexivity|]; right;
       (split; [assumption|]); eexists; split; [reflexivity|left; reflexivity]] .. |]).
  all: try discriminate H.
  simpl. split; [reflexivity|]. split; [reflexivity|]. right.
  split; [assumption|]. eexists. split; [reflexivity|]. right.
  repeat match goal with
         | E1 : ?x = Ok ?a, E2 : ?x = Ok ?b |- _ =>
             rewrite E1 in E2; injection E2 as <-
         end.
  match goal with E : int_of_float _ = Ok _ |- _ => simpl in E end.
  eexists. split; [eassumption|]. split; [|reflexivity].
  unfold depicts. do 15 eexists.
  repeat (split; [eassumption|]). reflexivity.
Qed.

(** X1: When [plt.figure] succeeds, the figure it opens is closed again exactly
    when the chart is returned: on the fallback path, whatever raised, the
    figure stays among pyplot's open figures. *)
Theorem figure_closed_only_on_success signal w path w' :
  create_binary_chart repr_other fails signal w = (Ok path, w') →
  fails (PltFigure (10, 6)) w = None →
  (path ≠ chart_error_png → open_figures w' = open_figures w) ∧
  (path = chart_error_png → ∃ f, open_figures w' = f :: open_figures w).
Proof.
  intros H Hfig. split.
  - intros Hne. apply create_binary_chart_success in H; [|exact Hne].
    apply render_Ok_inv in H as (n & f & _ & _ & _ & ->). reflexivity.
  - intros ->. rewrite create_binary_chart_unfold in H.
    destruct (render repr_other fails signal w) as [[name|e] w1] eqn:E.
    + injection H as Hname _.
      apply render_Ok_inv in E as (n & f & _ & -> & _).
      exfalso. exact (chart_path_not_fallback n Hname).
    + injection H as <-. simpl.
      apply render_Raise_inv in E as (_ & _ & [(Hf & _) | (_ & f & Hopen & _)]);
        [congruence|].
      exists f. exact Hopen.
Qed.

(** X2: A call that returns the fallback has written one line to the log, and
    has left the disk as it was, unless the chart had been saved when
    [plt.close] raised: then the finished drawing is on disk under the name
    of its second, and the caller is given the fallback all the same. *)
Theorem failed_render_log_and_disk signal w w' :
  create_binary_chart repr_other fails signal w = (Ok chart_error_png, w') →
  clock w' = clock w ∧
  (∃ e, log w' = log w ++ ["Chart creation error: " +:+ exn_message e]) ∧
  (files w' = files w ∨
   ∃ seconds f,
     int_of_float (clock w) = Ok seconds ∧ depicts repr_other signal f ∧
     files w' = <["/tmp/binary_chart_" +:+ pretty seconds +:+ ".png" := f]> (files w)).
Proof.
  intros H. rewrite create_binary_chart_unfold in H.
  destruct (render repr_other fails signal w) as [[name|e] w1] eqn:E.
  - injection H as Hname _.
    apply render_Ok_inv in E as (n & f & _ & -> & _).
    exfalso. exact (chart_path_not_fallback n Hname).
  - injection H as <-. simpl.
    apply render_Raise_inv in E as (Hlog & Hclock & Hcases).
    split; [exact Hclock|]. split; [exists e; rewrite Hlog; reflexivity|].
    destruct Hcases as [(_ & _ & Hfiles) | (_ & f & _ & [Hfiles | (n & Hn & Hd & Hfiles)])];
      [left; exact Hfiles | left; exact Hfiles |].
    right. exists n, f. auto.
Qed.

(** X3: The seven keys the body reads with [signal[...]] are all required: a
    dictionary that lacks one of them gets the fallback. *)
Theorem missing_key_falls_back (d : gmap string pyval) key w :
  key ∈ ["prices"; "analysis"; "current_price"; "direction"; "pair"; "expiry_minutes";
         "confidence"] →
  d !! key = None →
  (create_binary_chart repr_other fails (PyDict d) w).1 = Ok chart_error_png.
Proof.
  intros Hkey Hnone. rewrite create_binary_chart_unfold.
  destruct (render repr_other fails (PyDict d) w) as [[name|e] w1] eqn:E; [|reflexivity].
  exfalso. apply render_Ok_inv in E as (n & f & _ & _ & Hd & _).
  destruct Hd as (prices & n0 & analysis & sma10 & l10 & sma20 & l20 & price & lc &
                  direction & pair & minutes & confidence & percent & conf &
                  H1 & _ & H2 & _ & _ & _ & _ & H3 & _ & H4 & H5 & H6 & H7 & _).
  unfold getitem in H1, H2, H3, H4, H5, H6, H7.
  repeat (apply elem_of_cons in Hkey as [->|Hkey]; [rewrite Hnone in *; discriminate|]).
  by apply elem_of_nil in Hkey.
Qed.

End ChartFailure.

(** ** What the renderer does not look at *)

Section ChartInputs.
Import Py Plt Chart.

Variable repr_other : pyval → string.
Variable fails : call → world → option pyexn.

Lemma bind_cong {A B} (m1 m2 : M A) (k1 k2 : A → M B) w :
  m1 w = m2 w → (∀ a w1, k1 a w1 = k2 a w1) → (m1 ≫= k1) w = (m2 ≫= k2) w.
Proof.
  intros Hm H. unfold mbind, M_bind. rewrite Hm.
  destruct (m2 w) as [[a|e] w1]; [apply H | reflexivity].
Qed.

Lemma bind_lift_Ok {A B} (a : A) (k : A → M B) w : (lift (Ok a) ≫= k) w = k a w.
Proof. reflexivity. Qed.

Lemma bind_getitem_hit {B} (d : gmap string pyval) key v (k : pyval → M B) w :
  d !! key = Some v → (lift (getitem (PyDict d) key) ≫= k) w = k v w.
Proof. intros H. unfold getitem. rewrite H. reflexivity. Qed.

Ltac same_step :=
  first
    [ rewrite !bind_lift_Ok
    | apply bind_cong;
      [ unfold getitem; rewrite ?lookup_insert_ne, ?lookup_delete_ne by discriminate;
        reflexivity
      | intros ? ? ] ].

Lemma create_binary_chart_cong s1 s2 w :
  render repr_other fails s1 w = render repr_other fails s2 w →
  create_binary_chart repr_other fails s1 w = create_binary_chart repr_other fails s2 w.
Proof. intros H. rewrite !create_binary_chart_unfold, H. reflexivity. Qed.

(** X4: 'market_type' is read and then not used: whatever the signal holds
    under that key, the call returns what it returns, and does what it
    does, for the signal without the key. The chart never shows the market. *)
Theorem market_type_has_no_effect (d : gmap string pyval) v w :
  create_binary_chart repr_other fails (PyDict (<["market_type" := v]> d)) w =
  create_binary_chart repr_other fails (PyDict (delete "market_type" d)) w.
Proof.
  apply create_binary_chart_cong. unfold render, get.
  repeat same_step. reflexivity.
Qed.

(** X5: Only the exact string 'HIGH' is drawn as a call: two signals that
    differ in nothing but their direction, neither of them 'HIGH', get the
    same chart, titled "LOW (PUT)". *)
Theorem directions_other_than_HIGH_look_alike (d : gmap string pyval) v1 v2 w :
  eq_str v1 "HIGH" = false →
  eq_str v2 "HIGH" = false →
  create_binary_chart repr_other fails (PyDict (<["direction" := v1]> d)) w =
  create_binary_chart repr_other fails (PyDict (<["direction" := v2]> d)) w.
Proof.
  intros H1 H2. apply create_binary_chart_cong. unfold render, get.
  rewrite !lookup_insert_ne by discriminate.
  do 18 same_step.
  rewrite (bind_getitem_hit _ "direction" v1) by apply lookup_insert_eq.
  rewrite (bind_getitem_hit _ "direction" v2) by apply lookup_insert_eq.
  rewrite H1, H2.
  repeat same_step. reflexivity.
Qed.

End ChartInputs.

(** ** Chart files of different seconds *)

Section ChartNames.
Import Py Plt Chart.

Variable repr_other : pyval → string.
Variable fails : call → world → option pyexn.

Lemma string_length_app (s t : string) :
  String.length (s +:+ t) = (String.length s + String.length t)%nat.
Proof.
  induction s as [|a s IH]; [reflexivity|].
  change (S (String.length (s +:+ t)) = S (String.length s + String.length t)).
  rewrite IH. reflexivity.
Qed.

Lemma string_app_inv_tail (s1 s2 t : string) : s1 +:+ t = s2 +:+ t → s1 = s2.
Proof.
  revert s2. induction s1 as [|a s1 IH]; intros [|b s2] H; simpl in H.
  - reflexivity.
  - apply (f_equal String.length) in H.
    change (String.length t = S (String.length (s2 +:+ t))) in H.
    rewrite (string_length_app s2 t) in H. lia.
  - apply (f_equal String.length) in H.
    change (S (String.length (s1 +:+ t)) = String.length t) in H.
    rewrite (string_length_app s1 t) in H. lia.
  - change (String a (s1 +:+ t) = String b (s2 +:+ t)) in H.
    injection H as -> H. rewrite (IH s2 H). reflexivity.
Qed.

Lemma chart_path_inj (n1 n2 : Z) :
  "/tmp/binary_chart_" +:+ pretty n1 +:+ ".png" =
  "/tmp/binary_chart_" +:+ pretty n2 +:+ ".png" → n1 = n2.
Proof.
  intros H. apply (inj (String.app _)) in H.
  apply string_app_inv_tail in H. exact (inj pretty _ _ H).
Qed.

(** X6: Charts saved in different seconds have different names, and saving the
    later one leaves the file of the earlier one alone. *)
Theorem different_seconds_different_files s1 s2 w1 w2 f1 f2 w1' w2' :
  create_binary_chart repr_other fails s1 w1 = (Ok f1, w1') →
  f1 ≠ chart_error_png →
  create_binary_chart repr_other fails s2 w2 = (Ok f2, w2') →
  f2 ≠ chart_error_png →
  int_of_float (clock w1) ≠ int_of_float (clock w2) →
  f1 ≠ f2 ∧ files w2' !! f1 = files w2 !! f1.
Proof.
  intros H1 Hne1 H2 Hne2 Hclock.
  apply create_binary_chart_success in H1; [|exact Hne1].
  apply create_binary_chart_success in H2; [|exact Hne2].
  apply render_Ok_inv in H1 as (n1 & fig1 & Hn1 & -> & _ & ->).
  apply render_Ok_inv in H2 as (n2 & fig2 & Hn2 & -> & _ & ->).
  assert (Hnames : "/tmp/binary_chart_" +:+ pretty n1 +:+ ".png" ≠
                   "/tmp/binary_chart_" +:+ pretty n2 +:+ ".png").
  { intros Heq. apply chart_path_inj in Heq. congruence. }
  split; [exact Hnames|]. simpl.
  apply lookup_insert_ne. intros Heq. apply Hnames. symmetry. exact Heq.
Qed.

End ChartNames.

(** ** More on the database *)

Section SqlFurther.
Import Sql.






(** X8: Starting the bot again on its own database changes nothing in it:
    on every reachable state [setup_database] is the identity. *)
Theorem restart_changes_nothing d : reachable d → setup_database d = d.
Proof. intros H. apply setup_database_as_declared, reachable_as_declared, H. Qed.

(** *** Keys *)


Lemma rowids_elem k rs r n :
  r ∈ rs → cell k r = Some (Int n) → n ∈ rowids k rs.
Proof.
  intros Hr Hc. unfold rowids. apply list_elem_of_omap. exists r.
  split; [exact Hr|]. rewrite Hc. reflexivity.
Qed.


Lemma keyed_rowids k rs ids :
  cell k <$> rs = (λ n, Some (Int n)) <$> ids → rowids k rs = ids.
Proof.
  revert ids. induction rs as [|r rs IH]; intros [|n ids] H; try discriminate;
    [reflexivity|].
  injection H as Hr H. unfold rowids. simpl. rewrite Hr. simpl.
  f_equal. apply IH. exact H.
Qed.

(** The columns of an UPDATE that passed the check are no key columns. *)
Lemma update_leaves_key t k rest (assignments : list (string * expr)) :
  keys t = [k] :: rest →
  forallb (λ ce : string * expr,
             has_column t ce.1
             && negb (existsb (λ key, existsb (same_name ce.1) key) (keys t))
             && negb (existsb (λ fk, same_name (fk_column fk) ce.1) (tbl_foreign_keys t)))
          assignments = true →
  existsb (same_name k) assignments.*1 = false.
Proof.
  intros Hk Hall. induction assignments as [|[c e] rest' IH]; [reflexivity|].
  simpl in Hall. apply andb_true_iff in Hall as [Hc Hall].
  apply andb_true_iff in Hc as [Hc _]. apply andb_true_iff in Hc as [_ Hc].
  apply negb_true_iff in Hc. rewrite Hk in Hc. simpl in Hc.
  apply orb_false_iff in Hc as [Hc _]. apply orb_false_iff in Hc as [Hc _].
  simpl. rewrite same_name_sym, Hc. apply IH. exact Hall.
Qed.

Lemma keyed_insert lib t k c rs h now n given :
  used_rowids t rs h = rowids k rs →
  List.find (λ c, same_name (col_name c) k) (tbl_columns t) = Some c →
  col_primary_key c = true →
  keyed k rs → n ∉ used_rowids t rs h →
  keyed k (rs ++ [build_row lib now (tbl_columns t) n given]).
Proof.
  intros Hused Hfind Hpk (ids & Hids & Hnd) Hfree.
  exists (ids ++ [n]). split.
  - rewrite !fmap_app, Hids. simpl.
    rewrite (cell_build_row _ _ _ _ _ _ _ Hfind), Hpk. reflexivity.
  - apply NoDup_app. split; [exact Hnd|]. split; [|apply NoDup_singleton].
    intros m Hm Hm'. apply list_elem_of_singleton in Hm' as ->.
    rewrite Hused, (keyed_rowids k rs ids Hids) in Hfree. contradiction.
Qed.

Lemma keyed_update lib t k rest (rs : list row)
    (assignments : list (string * expr)) (cond : row → bool) :
  keys t = [k] :: rest →
  forallb (λ ce : string * expr,
             has_column t ce.1
             && negb (existsb (λ key, existsb (same_name ce.1) key) (keys t))
             && negb (existsb (λ fk, same_name (fk_column fk) ce.1) (tbl_foreign_keys t)))
          assignments = true →
  keyed k rs →
  keyed k (map (λ r, if cond r then set_cells lib t assignments r else r) rs).
Proof.
  intros Hk Hall (ids & Hids & Hnd). exists ids. split; [|exact Hnd].
  rewrite <- Hids. clear Hids.
  pose proof (update_leaves_key t k rest assignments Hk Hall) as Hnot.
  induction rs as [|r rs IH]; [reflexivity|]. cbn [map]. rewrite !fmap_cons.
  f_equal; [|exact IH].
  destruct (cond r); [|reflexivity]. apply cell_set_cells_other. exact Hnot.
Qed.

(** The three tables with a primary key, each with the name of the key. *)
Definition key_of (t : table) (k : string) : Prop :=
  (t = users ∧ k = "user_id") ∨ (t = signals ∧ k = "id") ∨
  (t = channel_subs ∧ k = "user_id").

Lemma key_of_facts t k :
  key_of t k →
  t ∈ [users; signals; user_signals; channel_subs] ∧
  lower (tbl_name t) = tbl_name t ∧
  (∀ rs h, used_rowids t rs h = rowids k rs) ∧
  (∃ c, List.find (λ c, same_name (col_name c) k) (tbl_columns t) = Some c ∧
        col_primary_key c = true) ∧
  keys t = [[k]].
Proof.
  intros [[-> ->] | [[-> ->] | [-> ->]]];
    (split; [repeat constructor|]; split; [reflexivity|]; split; [reflexivity|];
     split; [eexists; split; reflexivity | reflexivity]).
Qed.

Lemma reachable_keyed t k d :
  key_of t k → reachable d → keyed k (rows_of (tbl_name t) d).
Proof.
  intros Hkey Hr.
  destruct (key_of_facts t k Hkey) as (Ht & Hlow & Hused & (c & Hfind & Hpk) & Hkeys).
  induction Hr as [lib | d d' now s Hr IH Hexec | d Hr IH].
  - assert (rows_of (tbl_name t) (setup_database (connect lib)) = []) as ->.
    { repeat (apply elem_of_cons in Ht as [->|Ht]; [reflexivity|]).
      by apply elem_of_nil in Ht. }
    exists []. split; [reflexivity | apply NoDup_nil; exact I].
  - destruct (reachable_as_declared d Hr) as [_ Hdecl].
    destruct (Hdecl t Ht) as [rs Hrs].
    rewrite (rows_of_lookup _ _ _ _ Hrs) in IH.
    destruct s as [tn given | tn assignments cond]; simpl in Hexec.
    + destruct (decide (lower tn = tbl_name t)) as [Heq|Hne].
      * apply insert_Some_inv in Hexec as (t0 & rs0 & n & H0 & _ & Hfree & Hd' & _).
        rewrite Heq in H0, Hfree, Hd'. rewrite Hrs in H0. injection H0 as <- <-.
        unfold rows_of. rewrite Hd', lookup_insert_eq.
        eapply keyed_insert; eauto.
      * rewrite (rows_of_insert _ _ _ _ _ _ Hexec Hne).
        rewrite (rows_of_lookup _ _ _ _ Hrs). exact IH.
    + rewrite (rows_of_update _ _ _ _ _ (tbl_name t) Hexec).
      destruct (decide (lower tn = tbl_name t)) as [Heq|Hne];
        [|rewrite (rows_of_lookup _ _ _ _ Hrs); exact IH].
      rewrite Hrs.
      apply update_Some_inv in Hexec as (t0 & rs0 & H0 & Hall & _).
      rewrite Heq, Hrs in H0. injection H0 as <- <-.
      eapply keyed_update; eassumption.
  - rewrite (setup_database_as_declared d (reachable_as_declared d Hr)). exact IH.
Qed.

(** X9: PRIMARY KEY: in every reachable state the user_id values of users, the
    id values of signals and the user_id values of channel_subs are
    integers, and no two rows of a table have the same one. *)
Theorem primary_keys_stay_unique d :
  reachable d →
  keyed "user_id" (rows_of "users" d) ∧
  keyed "id" (rows_of "signals" d) ∧
  keyed "user_id" (rows_of "channel_subs" d).
Proof.
  intros Hr. split; [|split].
  - apply (reachable_keyed users "user_id"); [left; auto | exact Hr].
  - apply (reachable_keyed signals "id"); [right; left; auto | exact Hr].
  - apply (reachable_keyed channel_subs "user_id"); [right; right; auto | exact Hr].
Qed.

(** X10: A plain INSERT into users that gives a user_id which a row already
    has is refused: registering a known user again needs another
    statement. The user_id that the statement gives is the value under the
    last of its names for the rowid (user_id, rowid, oid, _rowid_, in any
    case). *)
Theorem existing_user_id_refused d r n given now :
  reachable d →
  r ∈ rows_of "users" d →
  cell "user_id" r = Some (Int n) →
  given_rowid users given = Some (Int n) →
  insert "users" given now d = None.
Proof.
  intros Hr Hin Hcell Hgiven.
  destruct (reachable_as_declared d Hr) as [_ Ht].
  destruct (Ht users) as [rs Hrs]; [repeat constructor|]. simpl in Hrs.
  rewrite (rows_of_lookup _ _ _ _ Hrs) in Hin.
  unfold insert. change (lower "users") with "users". rewrite Hrs.
  destruct (negb (forallb _ given)); [reflexivity|].
  rewrite Hgiven.
  change (new_rowid ?lib ?auto ?used ?seq (Some (Int n))) with (Some n).
  cbv beta iota zeta.
  change (used_rowids users rs ?h) with (rowids "user_id" rs).
  rewrite bool_decide_eq_true_2 by (eapply rowids_elem; eassumption).
  reflexivity.
Qed.

(** *** AUTOINCREMENT *)






(** X12: A user starts out as not subscribed: a row inserted into channel_subs
    by a statement that names neither subscribed nor last_checked holds 0
    and the time of the insertion there. *)
Theorem new_channel_sub_defaults d given now d' :
  reachable d →
  insert "channel_subs" given now d = Some d' →
  cell "subscribed" given = None →
  cell "last_checked" given = None →
  ∃ r,
    rows_of "channel_subs" d' = rows_of "channel_subs" d ++ [r] ∧
    cell "subscribed" r = Some (Int 0) ∧
    cell "last_checked" r = Some (Timestamp now).
Proof.
  intros Hr Hins Hs Hl.
  destruct (reachable_as_declared d Hr) as [_ Ht].
  destruct (Ht channel_subs) as [rs Hrs]; [repeat constructor|]. simpl in Hrs.
  apply insert_Some_inv in Hins as (t & rs' & n & Hlk & _ & _ & Hd' & _).
  change (lower "channel_subs") with "channel_subs" in *.
  rewrite Hrs in Hlk. injection Hlk as <- <-.
  eexists. split.
  { unfold rows_of. rewrite Hd', lookup_insert_eq, Hrs. reflexivity. }
  split; erewrite cell_build_row by reflexivity; simpl; rewrite ?Hs, ?Hl; reflexivity.
Qed.

End SqlFurther.

(** ** Construction and start *)

Section BotProofs.
Import Py Bot.

Variable defined : string → bool.
Variable build_application : pyval → option pyexn.
Variable connect_fails : string → option pyexn.
Variable run_polling : list handler → option pyexn.
Variable repr_other : pyval → string.
Variable sqlite : Sql.library.

Lemma setup_handlers_all registered p :
  (∀ name, name ∈ callbacks → defined name = true) →
  setup_handlers defined registered p =
  (Ok (registered ++ registered_handlers), logged INFO "Handlers setup completed" p).
Proof.
  intros H. unfold setup_handlers, method.
  rewrite !H by (unfold callbacks; repeat constructor).
  unfold mbind, M_bind, mret, M_ret, logger, logged. simpl.
  rewrite <- !app_assoc. reflexivity.
Qed.

Lemma setup_handlers_missing registered p name :
  List.find (λ c, negb (defined c)) callbacks = Some name →
  setup_handlers defined registered p = (Raise (no_attribute name), p).
Proof.
  unfold setup_handlers, method, callbacks, no_attribute. simpl.
  repeat match goal with
         | |- context [negb (defined ?c)] =>
             destruct (defined c) eqn:?; simpl;
             [|intros H; injection H as <-; reflexivity]
         end.
  discriminate.
Qed.

(** X13: [setup_handlers] needs all twelve callbacks: with every one of them
    defined it registers the twelve handlers in the order of the source and
    logs that; otherwise it raises AttributeError for the first callback, in
    that order, that the class lacks, and logs nothing. *)
Theorem setup_handlers_needs_every_callback registered p :
  setup_handlers defined registered p =
  match List.find (λ c, negb (defined c)) callbacks with
  | None =>
      (Ok (registered ++ registered_handlers), logged INFO "Handlers setup completed" p)
  | Some name => (Raise (no_attribute name), p)
  end.
Proof.
  destruct (List.find (λ c, negb (defined c)) callbacks) as [name|] eqn:E.
  - apply setup_handlers_missing. exact E.
  - apply setup_handlers_all. intros name Hname.
    apply list_elem_of_In in Hname.
    pose proof (find_none _ _ E name Hname) as Hn. simpl in Hn.
    apply negb_false_iff in Hn. exact Hn.
Qed.

(** [__init__] when the class has every callback, by what its calls into
    the libraries do. *)
Lemma init_with_callbacks c p :
  (∀ name, name ∈ callbacks → defined name = true) →
  init defined build_application connect_fails sqlite c p =
  match build_application (BOT_TOKEN c) with
  | Some e => (Raise e, p)
  | None =>
      let p1 := logged INFO "Handlers setup completed" p in
      match connect_fails (DATABASE_NAME c) with
      | Some e => (Raise e, p1)
      | None =>
          let p2 := logged INFO "Database initialized successfully"
                      (committed sqlite (DATABASE_NAME c) p1) in
          match validate_config c with
          | None => (Ok (constructed sqlite c p), p2)
          | Some e =>
              (Raise e,
               if is_ValueError e
               then logged ERROR ("Configuration error: " +:+ exn_message e) p2
               else p2)
          end
      end
  end.
Proof.
  intros H. unfold init.
  unfold mbind at 1, M_bind at 1, external at 1.
  destruct (build_application (BOT_TOKEN c)) as [e|]; [reflexivity|].
  unfold mbind at 1, M_bind at 1. rewrite (setup_handlers_all [] p H).
  unfold setup_database.
  unfold mbind, M_bind, external, try_except_ValueError, logger, raise, mret, M_ret.
  destruct (connect_fails (DATABASE_NAME c)) as [e|]; [reflexivity|].
  destruct (validate_config c) as [e|]; [|reflexivity].
  destruct (is_ValueError e); reflexivity.
Qed.


Lemma init_without_callback c p name :
  List.find (λ c, negb (defined c)) callbacks = Some name →
  init defined build_application connect_fails sqlite c p =
  match build_application (BOT_TOKEN c) with
  | Some e => (Raise e, p)
  | None => (Raise (no_attribute name), p)
  end.
Proof.
  intros H. unfold init.
  unfold mbind at 1, M_bind at 1, external at 1.
  destruct (build_application (BOT_TOKEN c)) as [e|]; [reflexivity|].
  unfold mbind at 1, M_bind at 1. rewrite (setup_handlers_missing [] p name H).
  reflexivity.
Qed.

(** X15: A bot that was constructed has the twelve handlers, a database with
    the four tables, and nothing in memory: the cooldown map, the other
    dictionaries and the premium set are empty whatever the database file
    held, and the session is None. That takes every callback, a token the
    library accepts, a database that opens and a valid configuration. *)
Theorem constructed_bot_starts_empty c p b p' :
  init defined build_application connect_fails sqlite c p = (Ok b, p') →
  ((∀ name, name ∈ callbacks → defined name = true) ∧
   build_application (BOT_TOKEN c) = None ∧
   connect_fails (DATABASE_NAME c) = None ∧
   validate_config c = None) ∧
  handlers b = registered_handlers ∧
  user_cooldown b = ∅ ∧ last_signal_time b = [] ∧ user_analytics b = [] ∧
  premium_users b = [] ∧ session b = None ∧
  conn b = Sql.setup_database
             (if is_private (DATABASE_NAME c) then Sql.connect sqlite
              else default (Sql.connect sqlite) (disk p !! DATABASE_NAME c)) ∧
  stdout p' = stdout p.
Proof.
  intros H.
  destruct (List.find (λ c, negb (defined c)) callbacks) as [name|] eqn:E.
  { rewrite (init_without_callback c p name E) in H.
    destruct (build_application (BOT_TOKEN c)); discriminate. }
  assert (Hall : ∀ name, name ∈ callbacks → defined name = true).
  { intros name Hname. apply list_elem_of_In in Hname.
    pose proof (find_none _ _ E name Hname) as Hn. simpl in Hn.
    apply negb_false_iff in Hn. exact Hn. }
  rewrite (init_with_callbacks c p Hall) in H.
  destruct (build_application (BOT_TOKEN c)) as [e|]; [discriminate|].
  destruct (connect_fails (DATABASE_NAME c)) as [e|]; [discriminate|].
  destruct (validate_config c) as [e|]; [discriminate|].
  injection H as <- <-. repeat split; auto.
Qed.


(** X18: Whether RENDER is in the environment changes nothing: polling is what
    both branches start. *)
Theorem render_variable_changes_nothing environ1 environ2 c p :
  main defined build_application connect_fails run_polling repr_other sqlite environ1 c p =
  main defined build_application connect_fails run_polling repr_other sqlite environ2 c p.
Proof.
  unfold main, try_except_Exception.
  assert (∀ b q, run run_polling repr_other environ1 b q =
                 run run_polling repr_other environ2 b q) as Hrun.
  { intros b q. unfold run.
    destruct (decide ("RENDER" ∈ environ1)), (decide ("RENDER" ∈ environ2)); reflexivity. }
  unfold mbind at 1 3, M_bind at 1 3.
  destruct (init defined build_application connect_fails sqlite c p) as [[b|e] p1];
    [rewrite Hrun|]; reflexivity.
Qed.

End BotProofs.

(** ** The further properties on the scenarios *)

Section FurtherScenarios.
Import Py Plt Chart ChartExamples.

Example close_failure_leaves_the_chart :
  let r := create_binary_chart plain_repr close_fails eurusd (at_time 1730000000.2 ∅) in
  r.1 = Ok "/tmp/chart_error.png" ∧
  is_Some (files r.2 !! "/tmp/binary_chart_1730000000.png") ∧
  length (open_figures r.2) = 1%nat.
Proof. vm_compute. eauto. Qed.

Example bot_py_alone_cannot_start :
  (Bot.main Bot.defined_in_bot_py BotExamples.accepts BotExamples.opens BotExamples.polls
     BotExamples.plain_repr SqlExamples.idle ∅ BotExamples.valid BotExamples.boot).2
  = {| Bot.disk := ∅;
       Bot.log := [(Bot.ERROR,
                    "Failed to start bot: 'BinaryTradingBot' object has no attribute 'start'")];
       Bot.stdout :=
         ["❌ Bot startup failed: 'BinaryTradingBot' object has no attribute 'start'"] |}.
Proof. vm_compute. reflexivity. Qed.

Example valid_bot_prints_its_banner :
  Bot.stdout
    (Bot.main BotExamples.all_defined BotExamples.accepts BotExamples.opens BotExamples.polls
       BotExamples.plain_repr SqlExamples.idle ∅ BotExamples.valid BotExamples.boot).2
  = [ "🤖 Binary Trading Bot Starting..."; "🤖 Bot: @signals_bot"; "📢 Channel: @signals";
      "👤 Admin: @admin"; "🔐 Channel Required: True"; "💎 Premium Enabled: False";
      "==================================================" ].
Proof. vm_compute. reflexivity. Qed.

End FurtherScenarios.

Lemma figure_closed_only_on_success_witness :
  ∃ f, Plt.open_figures ChartExamples.failed_run.2 = [f].
Proof.
  destruct (figure_closed_only_on_success ChartExamples.plain_repr ChartExamples.quiet
              ChartExamples.incomplete (ChartExamples.at_time 1730000000.2 ∅)
              Chart.chart_error_png ChartExamples.failed_run.2) as [_ H].
  - vm_compute. reflexivity.
  - reflexivity.
  - exact (H eq_refl).
Defined.

Lemma failed_render_log_and_disk_witness :
  (∃ e, Plt.log ChartExamples.failed_run.2
        = [] ++ ["Chart creation error: " +:+ Py.exn_message e]) ∧
  Plt.files ChartExamples.failed_run.2 = ∅.
Proof.
  destruct (failed_render_log_and_disk ChartExamples.plain_repr ChartExamples.quiet
              ChartExamples.incomplete (ChartExamples.at_time 1730000000.2 ∅)
              ChartExamples.failed_run.2) as (_ & Hlog & _).
  - vm_compute. reflexivity.
  - split; [exact Hlog | vm_compute; reflexivity].
Defined.

Lemma missing_key_falls_back_witness :
  (Chart.create_binary_chart ChartExamples.plain_repr ChartExamples.quiet
     (Py.PyDict ChartExamples.bare_items) (ChartExamples.at_time 1730000000.2 ∅)).1
  = Py.Ok Chart.chart_error_png.
Proof.
  apply (missing_key_falls_back ChartExamples.plain_repr ChartExamples.quiet
           ChartExamples.bare_items "confidence").
  - repeat constructor.
  - vm_compute. reflexivity.
Defined.

Lemma directions_other_than_HIGH_look_alike_witness :
  Chart.create_binary_chart ChartExamples.plain_repr ChartExamples.quiet
    (Py.PyDict (<["direction" := Py.PyStr "LOW"]> ChartExamples.eurusd_items))
    (ChartExamples.at_time 1730000000.2 ∅) =
  Chart.create_binary_chart ChartExamples.plain_repr ChartExamples.quiet
    (Py.PyDict (<["direction" := Py.PyStr "NEUTRAL"]> ChartExamples.eurusd_items))
    (ChartExamples.at_time 1730000000.2 ∅).
Proof.
  apply (directions_other_than_HIGH_look_alike ChartExamples.plain_repr ChartExamples.quiet
           ChartExamples.eurusd_items (Py.PyStr "LOW") (Py.PyStr "NEUTRAL")
           (ChartExamples.at_time 1730000000.2 ∅)); reflexivity.
Defined.

Lemma different_seconds_different_files_witness :
  "/tmp/binary_chart_1730000000.png" ≠ "/tmp/binary_chart_1730000001.png" ∧
  Plt.files ChartExamples.next_second_run.2 !! "/tmp/binary_chart_1730000000.png"
  = Plt.files ChartExamples.first_run.2 !! "/tmp/binary_chart_1730000000.png".
Proof.
  apply (different_seconds_different_files ChartExamples.plain_repr ChartExamples.quiet
           ChartExamples.eurusd ChartExamples.gbpusd
           (ChartExamples.at_time 1730000000.2 ∅)
           (ChartExamples.at_time 1730000001.5 (Plt.files ChartExamples.first_run.2))
           "/tmp/binary_chart_1730000000.png" "/tmp/binary_chart_1730000001.png"
           ChartExamples.first_run.2 ChartExamples.next_second_run.2).
  - vm_compute. reflexivity.
  - discriminate.
  - vm_compute. reflexivity.
  - discriminate.
  - intros H. vm_compute in H. discriminate.
Defined.

Lemma restart_changes_nothing_witness :
  ∃ d, Sql.exec_all SqlExamples.delivered_once SqlExamples.fresh = Some d ∧
       Sql.setup_database d = d.
Proof.
  eexists. split; [vm_compute; reflexivity|].
  apply restart_changes_nothing.
  apply (exec_all_reachable SqlExamples.delivered_once SqlExamples.fresh);
    [apply Sql.reach_fresh | vm_compute; reflexivity].
Defined.

Lemma primary_keys_stay_unique_witness :
  ∃ d, Sql.exec_all SqlExamples.delivered_once SqlExamples.fresh = Some d ∧
       Sql.keyed "user_id" (Sql.rows_of "users" d) ∧
       Sql.keyed "id" (Sql.rows_of "signals" d) ∧
       Sql.keyed "user_id" (Sql.rows_of "channel_subs" d).
Proof.
  eexists. split; [vm_compute; reflexivity|].
  apply primary_keys_stay_unique.
  apply (exec_all_reachable SqlExamples.delivered_once SqlExamples.fresh);
    [apply Sql.reach_fresh | vm_compute; reflexivity].
Defined.

Lemma existing_user_id_refused_witness :
  ∃ d, Sql.exec_all SqlExamples.delivered_once SqlExamples.fresh = Some d ∧
       Sql.insert "users" SqlExamples.bob 2000 d = None.
Proof.
  eexists. split; [vm_compute; reflexivity|].
  eapply existing_user_id_refused with (n := 42).
  - apply (exec_all_reachable SqlExamples.delivered_once SqlExamples.fresh);
      [apply Sql.reach_fresh | vm_compute; reflexivity].
  - vm_compute. left.
  - reflexivity.
  - reflexivity.
Defined.


Lemma new_channel_sub_defaults_witness :
  ∃ d r,
    Sql.insert "channel_subs" SqlExamples.alice_sub 1000 SqlExamples.fresh = Some d ∧
    Sql.rows_of "channel_subs" d = [r] ∧
    Sql.cell "subscribed" r = Some (Sql.Int 0) ∧
    Sql.cell "last_checked" r = Some (Sql.Timestamp 1000).
Proof.
  destruct (Sql.insert "channel_subs" SqlExamples.alice_sub 1000 SqlExamples.fresh)
    as [d|] eqn:Hins; [|vm_compute in Hins; discriminate].
  destruct (new_channel_sub_defaults SqlExamples.fresh SqlExamples.alice_sub 1000 d
              (Sql.reach_fresh SqlExamples.idle) Hins eq_refl eq_refl) as (r & Hrows & Hcells).
  exists d, r. split; [reflexivity|]. split; [exact Hrows | exact Hcells].
Defined.


Lemma constructed_bot_starts_empty_witness :
  ∃ b p',
    Bot.init BotExamples.all_defined BotExamples.accepts BotExamples.opens
      SqlExamples.idle BotExamples.valid BotExamples.boot = (Py.Ok b, p') ∧
    Bot.handlers b = Bot.registered_handlers ∧
    Bot.user_cooldown b = ∅ ∧ Bot.premium_users b = [] ∧
    Bot.conn b = SqlExamples.fresh.
Proof.
  destruct (Bot.init BotExamples.all_defined BotExamples.accepts BotExamples.opens
              SqlExamples.idle BotExamples.valid BotExamples.boot) as [[b|e] p'] eqn:Hinit;
    [|vm_compute in Hinit; discriminate].
  destruct (constructed_bot_starts_empty BotExamples.all_defined BotExamples.accepts
              BotExamples.opens SqlExamples.idle BotExamples.valid BotExamples.boot b p' Hinit)
    as (_ & Hh & Hc & _ & _ & Hp & _ & Hconn & _).
  exists b, p'. split; [reflexivity|]. repeat split; assumption.
Defined.

